(** * Virality scoring: a shallow embedding of the two Python scorers

    The repository holds two scorers for short posts:

    - [enhanced_algorithm.py], class [EnhancedTwitterAlgorithm] (module
      [Enhanced] below), the variant [run_full_analysis] prefers;
    - [twitter_algorithm_service.py], class [TwitterAlgorithmService] (module
      [Service] below), the fallback.

    Python [float] is IEEE 754 binary64 with round-to-nearest-even, which is
    what Rocq's primitive [float] is, so every arithmetic step of the source is
    kept as it is written, rounding included: [0.3 - 0.1] is
    [0.19999999999999998] here as it is there.  Python [int] is [Z].  Python
    [str] is modelled on the code points U+0000..U+00FF as [string], with
    [lower()], [\w] and [\s] as Python has them on that range.  The built-in
    [sum] adds from the left.

    The clock and the random generator are read from an explicit [World]
    (module [Env]); exceptions are values of [result].  The service's
    calculators run on dynamically typed values (module [PyVal]), since that
    is where their [try]/[except] blocks have something to catch. *)

From Stdlib Require Import ZArith Floats String Ascii List Bool Lia.
Import ListNotations.

Set Warnings "-inexact-float".

(** ** Python floats *)

Module PyFloat.

Local Open Scope float_scope.

(** [max(a, b)]: the first argument is kept unless the second is strictly
    greater (so a NaN second argument never wins). *)
Definition py_max (a b : float) : float := if a <? b then b else a.

(** [min(a, b)]: the first argument is kept unless the second is strictly
    smaller. *)
Definition py_min (a b : float) : float := if b <? a then b else a.

(** Python exceptions that the modelled code can meet. *)
Inductive exn : Type :=
| OverflowError   (* int(inf) *)
| ValueError      (* int(nan) *)
| TypeError       (* an operator applied to None or to a wrong type *)
| AttributeError  (* a method looked up on None *)
| RuntimeError (msg : string).

Inductive result (A : Type) : Type :=
| Ok (a : A)
| Raise (e : exn).
Arguments Ok {A} a.
Arguments Raise {A} e.

(** [int(x)] on a float: truncation toward zero; infinities and NaN raise. *)
Definition int_of_float (x : float) : result Z :=
  match Prim2SF x with
  | S754_zero _ => Ok 0%Z
  | S754_finite s m e => Ok (cond_Zopp s (Z.shiftl (Zpos m) e))
  | S754_infinity _ => Raise OverflowError
  | S754_nan => Raise ValueError
  end.

(** [float(n)] for the small non-negative integers the code multiplies by. *)
Definition float_of_small (n : Z) : float := of_uint63 (Uint63.of_Z n).

End PyFloat.

(** ** Python strings, on the code points below 256 *)

Module PyStr.

Local Open Scope string_scope.
Local Open Scope N_scope.

Definition code (c : ascii) : N := N_of_ascii c.

Definition between (lo hi n : N) : bool := (lo <=? n) && (n <=? hi).

(** [str.lower()] : A-Z, and U+00C0..U+00DE except the multiplication sign. *)
Definition lower_char (c : ascii) : ascii :=
  let n := code c in
  if between 65 90 n || (between 192 222 n && negb (n =? 215))
  then ascii_of_N (n + 32) else c.

Fixpoint lower (s : string) : string :=
  match s with
  | EmptyString => EmptyString
  | String c r => String (lower_char c) (lower r)
  end.

(** [s.startswith(p)] *)
Definition startswith (s p : string) : bool := String.prefix p s.

(** [needle in hay] *)
Fixpoint contains (needle hay : string) : bool :=
  String.prefix needle hay
  || match hay with
     | EmptyString => false
     | String _ r => contains needle r
     end.

(** [s.count(c)] for a one-character [c]. *)
Fixpoint count_char (c : ascii) (s : string) : Z :=
  match s with
  | EmptyString => 0%Z
  | String a r => ((if Ascii.eqb a c then 1 else 0) + count_char c r)%Z
  end.

(** [len(s)] *)
Definition len (s : string) : Z := Z.of_nat (String.length s).

(** The class [\w] of [re] on [str] patterns: alphanumeric or underscore. *)
Definition is_word (c : ascii) : bool :=
  let n := code c in
  between 48 57 n || between 65 90 n || (n =? 95) || between 97 122 n
  || (n =? 170) || between 178 179 n || (n =? 181) || between 185 186 n
  || between 188 190 n || between 192 214 n || between 216 246 n
  || between 248 255 n.

(** The class [\s]. *)
Definition is_space (c : ascii) : bool :=
  let n := code c in
  between 9 13 n || between 28 32 n || (n =? 133) || (n =? 160).

(** [len(re.findall(sigil + r'\w+', s))].  The sigil is no word character,
    so a match is exactly a sigil followed by a word character, and the
    greedy [\w+] that follows can swallow no later match. *)
Fixpoint count_tagged (sigil : ascii) (s : string) : Z :=
  match s with
  | EmptyString => 0%Z
  | String a r =>
      ((if Ascii.eqb a sigil
           && match r with String b _ => is_word b | EmptyString => false end
        then 1 else 0) + count_tagged sigil r)%Z
  end.

(** [p] followed by at least one non-space character, at the head of [s]. *)
Fixpoint then_nonspace (p s : string) : bool :=
  match p, s with
  | EmptyString, String c _ => negb (is_space c)
  | String a p', String b s' => Ascii.eqb a b && then_nonspace p' s'
  | _, EmptyString => false
  end.

(** [bool(re.search(r'https?://[^\s]+', s))] *)
Fixpoint search_url (s : string) : bool :=
  then_nonspace "http://" s || then_nonspace "https://" s
  || match s with
     | EmptyString => false
     | String _ r => search_url r
     end.

(** [bool(re.search(r'\[media\]|\[photo\]|\[video\]', s, re.IGNORECASE))]:
    below U+0100 case-insensitive matching of these patterns is matching
    against the lowered text. *)
Definition search_media (s : string) : bool :=
  let l := lower s in
  contains "[media]" l || contains "[photo]" l || contains "[video]" l.

End PyStr.

(** ** The environment: the wall clock and the random generator

  The scorers read the clock ([time.time()], [datetime.now().hour]) and the
  enhanced one draws from [random.uniform(-0.1, 0.1)]; the service prints
  error lines.  Computations are state-and-error passing over a [World]. *)

Module Env.

Import PyFloat.

Record World : Type := mkWorld {
  clock_ms : Z;               (* int(time.time() * 1000) at a read *)
  clock_hour : Z;             (* datetime.now().hour *)
  rng_out : nat -> float;     (* the n-th value random.uniform returns *)
  rng_pos : nat;              (* how many values were drawn so far *)
  stdout : list (string * exn) (* lines printed: a prefix and the error *)
}.

Definition M (A : Type) : Type := World -> result A * World.

Definition ret {A} (a : A) : M A := fun w => (Ok a, w).

Definition raise {A} (e : exn) : M A := fun w => (Raise e, w).

Definition bind {A B} (m : M A) (k : A -> M B) : M B :=
  fun w => match m w with
           | (Ok a, w') => k a w'
           | (Raise e, w') => (Raise e, w')
           end.

Definition lift {A} (r : result A) : M A := fun w => (r, w).

(** [try: body  except Exception as e: handler(e)] *)
Definition try_except {A} (body : M A) (handler : exn -> M A) : M A :=
  fun w => match body w with
           | (Ok a, w') => (Ok a, w')
           | (Raise e, w') => handler e w'
           end.

Definition time_ms : M Z := fun w => (Ok (clock_ms w), w).

Definition now_hour : M Z := fun w => (Ok (clock_hour w), w).

Definition random_uniform (a b : float) : M float :=
  fun w => (Ok (rng_out w (rng_pos w)),
            mkWorld (clock_ms w) (clock_hour w) (rng_out w)
                    (S (rng_pos w)) (stdout w)).

Definition print (prefix : string) (e : exn) : M unit :=
  fun w => (Ok tt,
            mkWorld (clock_ms w) (clock_hour w) (rng_out w) (rng_pos w)
                    (stdout w ++ [(prefix, e)])).

Declare Scope py_scope.
Delimit Scope py_scope with py.
Notation "x <- m ;; k" := (bind m (fun x => k))
  (at level 61, m at next level, right associativity) : py_scope.
Notation "m ;;; k" := (bind m (fun _ => k))
  (at level 61, right associativity) : py_scope.

End Env.

(** ** enhanced_algorithm.py *)

Module Enhanced.

Import PyFloat PyStr Env.
Local Open Scope string_scope.
Local Open Scope float_scope.

Record TweetFeatures : Type := mkFeatures {
  text : string;
  has_url : bool;
  has_media : bool;
  is_retweet : bool;
  is_reply : bool;
  length : Z;
  hashtag_count : Z;
  mention_count : Z;
  question_mark_count : Z;
  exclamation_count : Z;
  timestamp : Z;
  author_id : option string;
  tweet_id : option string
}.

(** The three tables of [__init__], in insertion order (the order
    [dict.items()] iterates in). *)
Definition trending_topics : list (string * float) :=
  [ ("ai", 0.9); ("artificial intelligence", 0.9); ("machine learning", 0.8);
    ("crypto", 0.8); ("bitcoin", 0.8); ("blockchain", 0.7);
    ("tech", 0.7); ("startup", 0.7); ("innovation", 0.6);
    ("breaking", 0.9); ("news", 0.6); ("update", 0.5);
    ("launch", 0.8); ("release", 0.7); ("announcement", 0.8) ].

Definition emotional_words : list (string * float) :=
  [ ("amazing", 0.8); ("incredible", 0.8); ("shocking", 0.9);
    ("unbelievable", 0.8); ("mind-blowing", 0.9); ("wow", 0.7);
    ("excited", 0.6); ("thrilled", 0.7); ("pumped", 0.6);
    ("love", 0.6); ("hate", 0.5); ("angry", 0.4) ].

Definition cta_words : list (string * float) :=
  [ ("what", 0.6); ("think", 0.7); ("opinion", 0.8);
    ("agree", 0.7); ("disagree", 0.8); ("thoughts", 0.8);
    ("share", 0.7); ("retweet", 0.6); ("comment", 0.6) ].

Definition extract_features (t : string) : M TweetFeatures :=
  (now <- time_ms ;;
   ret (mkFeatures
          t
          (search_url t)
          (search_media t)
          (startswith t "RT @" || contains "via @" t)
          (startswith t "@")
          (len t)
          (count_tagged "#" t)
          (count_tagged "@" t)
          (count_char "?" t)
          (count_char "!" t)
          now
          None
          None))%py.

(** The loop [for topic, score in items: if topic in text_lower: ...]. *)
Definition calculate_trending_score (t : string) : float :=
  let text_lower := lower t in
  fold_left
    (fun max_trending (item : string * float) =>
       if contains (fst item) text_lower
       then py_max max_trending (snd item) else max_trending)
    trending_topics 0.0.

Definition sum_matching (table : list (string * float)) (text_lower : string)
  : float :=
  fold_left
    (fun acc (item : string * float) =>
       if contains (fst item) text_lower then acc + snd item else acc)
    table 0.0.

Definition calculate_emotional_score (t : string) : float :=
  let text_lower := lower t in
  let emotional_score := sum_matching emotional_words text_lower in
  py_min emotional_score 1.0.

Definition calculate_cta_score (t : string) : float :=
  let text_lower := lower t in
  let cta_score := sum_matching cta_words text_lower in
  py_min cta_score 1.0.

Definition calculate_content_quality (features : TweetFeatures) : float :=
  let score := 0.3 in
  let score :=
    if ((100 <=? length features) && (length features <=? 200))%Z
    then score + 0.3
    else if ((50 <=? length features) && (length features <=? 280))%Z
    then score + 0.2
    else if (length features <? 50)%Z
    then score - 0.1
    else score in
  let trending_score := calculate_trending_score (text features) in
  let score := score + trending_score * 0.2 in
  let emotional_score := calculate_emotional_score (text features) in
  let score := score + emotional_score * 0.15 in
  let cta_score := calculate_cta_score (text features) in
  let score := score + cta_score * 0.1 in
  let score :=
    if (question_mark_count features >? 0)%Z then score + 0.1 else score in
  let score :=
    if ((1 <=? exclamation_count features)
        && (exclamation_count features <=? 2))%Z
    then score + 0.05
    else if (exclamation_count features >? 3)%Z
    then score - 0.05
    else score in
  py_max 0.0 (py_min 1.0 score).

Definition calculate_engagement_potential (features : TweetFeatures)
  : float :=
  let score := 0.2 in
  let score :=
    if (question_mark_count features >? 0)%Z then score + 0.25 else score in
  let cta_score := calculate_cta_score (text features) in
  let score := score + cta_score * 0.2 in
  let emotional_score := calculate_emotional_score (text features) in
  let score := score + emotional_score * 0.15 in
  let score :=
    if ((1 <=? hashtag_count features) && (hashtag_count features <=? 3))%Z
    then score + 0.1
    else if (hashtag_count features >? 5)%Z
    then score - 0.1
    else score in
  let score :=
    if ((1 <=? mention_count features) && (mention_count features <=? 2))%Z
    then score + 0.05
    else if (mention_count features >? 3)%Z
    then score - 0.05
    else score in
  let score := if has_url features then score + 0.05 else score in
  py_max 0.0 (py_min 1.0 score).

(** The step function of [calculate_dynamic_timing], on the hour read. *)
Definition timing_of_hour (hour : Z) : float :=
  if ((9 <=? hour) && (hour <=? 10))%Z then 0.9
  else if ((12 <=? hour) && (hour <=? 13))%Z then 0.85
  else if ((17 <=? hour) && (hour <=? 18))%Z then 0.8
  else if ((19 <=? hour) && (hour <=? 21))%Z then 0.75
  else if ((8 <=? hour) && (hour <=? 22))%Z then 0.6
  else 0.3.

Definition calculate_dynamic_timing : M float :=
  (hour <- now_hour ;; ret (timing_of_hour hour))%py.

Definition professional_words : list string :=
  ["launch"; "announce"; "introduce"; "release"; "update"].

(** [calculate_user_reputation] up to the random draw. *)
Definition sophistication (t : string) : float :=
  let sophistication_score := 0.5 in
  let sophistication_score :=
    if (len t >? 100)%Z
    then sophistication_score + 0.1 else sophistication_score in
  let trending_score := calculate_trending_score t in
  let sophistication_score := sophistication_score + trending_score * 0.1 in
  if existsb (fun word => contains word (lower t)) professional_words
  then sophistication_score + 0.1 else sophistication_score.

Definition calculate_user_reputation (t : string) : M float :=
  (r <- random_uniform (-0.1) 0.1 ;;
   let sophistication_score := sophistication t + r in
   ret (py_max 0.3 (py_min 0.9 sophistication_score)))%py.

(** The toxicity heuristic inlined in [calculate_virality_score]:
    [sum(0.2 for word in toxic_words if word in text.lower())], added up
    from the left.  With no match Python's [sum] gives the integer [0],
    which the later [1.0 - toxicity_score] reads as [0.0]. *)
Definition toxic_words : list string :=
  ["hate"; "stupid"; "idiot"; "kill"; "die"].

Definition toxicity_of (t : string) : float :=
  fold_left
    (fun acc word => if contains word (lower t) then acc + 0.2 else acc)
    toxic_words 0.0.

Definition safety_of (t : string) : float :=
  py_max 0.0 (1.0 - toxicity_of t).

(** The [breakdown] dict: its five keys are fixed, so it is a record. *)
Record Breakdown : Type := mkBreakdown {
  content_quality : float;
  social_signals : float;
  timing : float;
  user_reputation : float;
  safety_score : float
}.

Record Suggestion : Type := mkSuggestion {
  type_ : string;
  priority : string;
  suggestion : string;
  expected_improvement : Z
}.

Definition dquote : string := String (ascii_of_nat 34) EmptyString.

Definition expand_content : Suggestion :=
  mkSuggestion "content" "high"
    "Expand your tweet to 100-200 characters for better engagement" 20.

Definition add_keywords : Suggestion :=
  mkSuggestion "content" "high"
    "Add trending keywords or emotional language to boost content quality"
    15.

Definition add_question : Suggestion :=
  mkSuggestion "engagement" "high"
    "Add a question to encourage replies and increase engagement" 25.

Definition more_cta : Suggestion :=
  mkSuggestion "engagement" "medium"
    ("Use more call-to-action words like " ++ dquote ++ "think" ++ dquote
     ++ ", " ++ dquote ++ "opinion" ++ dquote ++ ", or " ++ dquote
     ++ "share" ++ dquote)
    15.

Definition peak_hours : Suggestion :=
  mkSuggestion "timing" "medium"
    "Consider posting during peak hours (9-10 AM, 12-1 PM, 5-6 PM, 7-9 PM)"
    10.

Definition add_hashtags : Suggestion :=
  mkSuggestion "discoverability" "medium"
    "Add 1-3 relevant hashtags to increase discoverability" 12.

Definition reduce_hashtags : Suggestion :=
  mkSuggestion "discoverability" "low"
    "Reduce hashtags to 1-3 for better performance" 8.

(** [suggestions = []] followed by the four rule groups, each appending at
    most one record. *)
Definition generate_suggestions (breakdown : Breakdown)
    (features : TweetFeatures) : list Suggestion :=
  let suggestions : list Suggestion := [] in
  let suggestions :=
    if content_quality breakdown <? 0.6 then
      if (length features <? 100)%Z
      then (suggestions ++ [expand_content])%list
      else (suggestions ++ [add_keywords])%list
    else suggestions in
  let suggestions :=
    if social_signals breakdown <? 0.5 then
      if (question_mark_count features =? 0)%Z
      then (suggestions ++ [add_question])%list
      else (suggestions ++ [more_cta])%list
    else suggestions in
  let suggestions :=
    if timing breakdown <? 0.7
    then (suggestions ++ [peak_hours])%list else suggestions in
  if (hashtag_count features =? 0)%Z
  then (suggestions ++ [add_hashtags])%list
  else if (hashtag_count features >? 3)%Z
  then (suggestions ++ [reduce_hashtags])%list
  else suggestions.

Record Score : Type := mkScore {
  light_ranker_score : float;
  heavy_ranker_score : option float;
  toxicity_score : float;
  engagement_score : float;
  virality_score : Z;
  features : TweetFeatures;
  breakdown : Breakdown
}.

Record Analysis : Type := mkAnalysis {
  score : Score;
  suggestions : list Suggestion;
  algorithm_version : string;
  processing_time : Z
}.

(** The sum the composite score is cut from, in the order the source adds. *)
Definition breakdown_total (b : Breakdown) : float :=
  content_quality b + social_signals b + timing b + user_reputation b
  + safety_score b.

Definition calculate_virality_score (t : string) : M Analysis :=
  (features <- extract_features t ;;
   let content_quality := calculate_content_quality features in
   let engagement_potential := calculate_engagement_potential features in
   timing_score <- calculate_dynamic_timing ;;
   user_reputation <- calculate_user_reputation t ;;
   let toxicity_score := toxicity_of t in
   let safety_score := py_max 0.0 (1.0 - toxicity_score) in
   let breakdown :=
     mkBreakdown content_quality engagement_potential timing_score
                 user_reputation (safety_score * 0.2) in
   virality_score <- lift (int_of_float (breakdown_total breakdown * 100)) ;;
   let suggestions := generate_suggestions breakdown features in
   ret (mkAnalysis
          (mkScore content_quality None toxicity_score engagement_potential
                   virality_score features breakdown)
          suggestions
          "enhanced-ai-v2.0"
          0))%py.

End Enhanced.

(** ** Dynamically typed values

  The dataclass [TweetFeatures] checks no field type, and the service's
  calculators guard their bodies with [try]/[except Exception]: a field
  holding [None] makes a comparison raise [TypeError] there.  The service
  is therefore modelled on Python values, not on typed fields. *)

Module PyVal.

Import PyFloat PyStr.
Local Open Scope float_scope.

Inductive pyval : Type :=
| PNone
| PBool (b : bool)
| PInt (n : Z)
| PFloat (x : float)
| PStr (s : string).

(** [bool(v)] *)
Definition truthy (v : pyval) : bool :=
  match v with
  | PNone => false
  | PBool b => b
  | PInt n => negb (n =? 0)%Z
  | PFloat x => negb (x =? 0.0)
  | PStr s => negb (String.eqb s EmptyString)
  end.

(** [c <= v], [c < v], [v <= c] and [v > c] for an integer constant [c]
    (all the constants of the source convert to a float exactly). *)
Definition le_const (c : Z) (v : pyval) : result bool :=
  match v with
  | PBool b => Ok (c <=? (if b then 1 else 0))%Z
  | PInt n => Ok (c <=? n)%Z
  | PFloat x => Ok (float_of_small c <=? x)
  | PNone | PStr _ => Raise TypeError
  end.

Definition lt_const (c : Z) (v : pyval) : result bool :=
  match v with
  | PBool b => Ok (c <? (if b then 1 else 0))%Z
  | PInt n => Ok (c <? n)%Z
  | PFloat x => Ok (float_of_small c <? x)
  | PNone | PStr _ => Raise TypeError
  end.

Definition const_ge (v : pyval) (c : Z) : result bool :=  (* v <= c *)
  match v with
  | PBool b => Ok ((if b then 1 else 0) <=? c)%Z
  | PInt n => Ok (n <=? c)%Z
  | PFloat x => Ok (x <=? float_of_small c)
  | PNone | PStr _ => Raise TypeError
  end.

Definition gt_const (v : pyval) (c : Z) : result bool := lt_const c v.

(** The chained comparisons [lo <= v <= hi] and [lo < v <= hi]: the second
    test runs only when the first holds. *)
Definition chain_le_le (lo : Z) (v : pyval) (hi : Z) : result bool :=
  match le_const lo v with
  | Ok true => const_ge v hi
  | r => r
  end.

Definition chain_lt_le (lo : Z) (v : pyval) (hi : Z) : result bool :=
  match lt_const lo v with
  | Ok true => const_ge v hi
  | r => r
  end.

(** [v.lower()] *)
Definition str_lower (v : pyval) : result string :=
  match v with
  | PStr s => Ok (lower s)
  | _ => Raise AttributeError
  end.

(** [sum(1 for word in words if word in hay)] *)
Definition count_matching (words : list string) (hay : string) : Z :=
  fold_left (fun n word => if contains word hay then (n + 1)%Z else n)
            words 0%Z.

End PyVal.

(** ** twitter_algorithm_service.py *)

Module Service.

Import PyFloat PyStr PyVal Env.
Local Open Scope string_scope.
Local Open Scope float_scope.

Record TweetFeatures : Type := mkFeatures {
  text : pyval;
  has_url : pyval;
  has_media : pyval;
  is_retweet : pyval;
  is_reply : pyval;
  length : pyval;
  hashtag_count : pyval;
  mention_count : pyval;
  question_mark_count : pyval;
  exclamation_count : pyval;
  timestamp : pyval;
  author_id : pyval;
  tweet_id : pyval
}.

(** The service object: only [is_initialized] is read by the scorers. *)
Record Self : Type := mkSelf { is_initialized : bool }.

Definition not_initialized : exn :=
  RuntimeError "Algorithm service not initialized".

(** [metadata.get(key) if metadata else None], the dict as a list of
    items. *)
Fixpoint dict_get (key : string) (d : list (string * pyval)) : pyval :=
  match d with
  | [] => PNone
  | (k, v) :: r => if String.eqb k key then v else dict_get key r
  end.

Definition meta_get (key : string) (metadata : option (list (string * pyval)))
  : pyval :=
  match metadata with
  | Some ((_ :: _) as d) => dict_get key d
  | _ => PNone
  end.

(** [re.search] and the [str] methods need a [str]: anything else raises. *)
Definition extract_features (t : pyval)
    (metadata : option (list (string * pyval))) : M TweetFeatures :=
  match t with
  | PStr s =>
      (now <- time_ms ;;
       ret (mkFeatures
              (PStr s)
              (PBool (search_url s))
              (PBool (search_media s))
              (PBool (startswith s "RT @" || contains "via @" s))
              (PBool (startswith s "@"))
              (PInt (len s))
              (PInt (count_tagged "#" s))
              (PInt (count_tagged "@" s))
              (PInt (count_char "?" s))
              (PInt (count_char "!" s))
              (PInt now)
              (meta_get "authorId" metadata)
              (meta_get "tweetId" metadata)))%py
  | _ => raise TypeError
  end.

(** The body of the [try] block of [calculate_light_ranker_score]. *)
Definition light_ranker_body (features : TweetFeatures) : M float :=
  (let score := 0.5 in
   c <- lift (chain_le_le 50 (length features) 200) ;;
   let score := if c then score + 0.1 else score in
   c <- lift (gt_const (question_mark_count features) 0) ;;
   let score := if c then score + 0.05 else score in
   c <- lift (chain_lt_le 0 (exclamation_count features) 2) ;;
   let score := if c then score + 0.03 else score in
   c <- lift (chain_le_le 1 (hashtag_count features) 3) ;;
   let score := if c then score + 0.08 else score in
   c <- lift (chain_le_le 1 (mention_count features) 2) ;;
   let score := if c then score + 0.05 else score in
   let score := if truthy (has_url features) then score + 0.02 else score in
   let score := if truthy (has_media features) then score + 0.05 else score in
   let score := if truthy (is_retweet features) then score - 0.1 else score in
   c <- lift (gt_const (hashtag_count features) 5) ;;
   let score := if c then score - 0.1 else score in
   c <- lift (gt_const (mention_count features) 3) ;;
   let score := if c then score - 0.05 else score in
   c <- lift (gt_const (exclamation_count features) 3) ;;
   let score := if c then score - 0.05 else score in
   ret (py_max 0.0 (py_min 1.0 score)))%py.

Definition calculate_light_ranker_score (self : Self)
    (features : TweetFeatures) : M float :=
  if negb (is_initialized self) then raise not_initialized
  else
    try_except (light_ranker_body features)
      (fun e =>
         (print "Error calculating light ranker score" e ;;;
          ret 0.5)%py).

Definition toxic_words : list string :=
  [ "hate"; "stupid"; "idiot"; "moron"; "kill"; "die"; "damn"; "hell";
    "crap"; "suck"; "terrible"; "awful"; "disgusting"; "pathetic" ].

Definition toxicity_body (t : pyval) : M float :=
  (lower_text <- lift (str_lower t) ;;
   let toxic_word_count := count_matching toxic_words lower_text in
   let toxicity_score :=
     py_min (float_of_small toxic_word_count * 0.2) 1.0 in
   ret toxicity_score)%py.

Definition calculate_toxicity_score (self : Self) (t : pyval) : M float :=
  if negb (is_initialized self) then raise not_initialized
  else
    try_except (toxicity_body t)
      (fun e =>
         (print "Error calculating toxicity score" e ;;;
          ret 0.1)%py).

Definition cta_words : list string :=
  ["what"; "think"; "opinion"; "agree"; "disagree"; "thoughts"; "share"].

Definition emotional_words : list string :=
  ["amazing"; "incredible"; "shocking"; "unbelievable"; "wow"].

Definition engagement_body (features : TweetFeatures) : M float :=
  (let score := 0.3 in
   c <- lift (gt_const (question_mark_count features) 0) ;;
   let score := if c then score + 0.2 else score in
   l <- lift (str_lower (text features)) ;;
   let cta_count := count_matching cta_words l in
   let score := score + float_of_small cta_count * 0.05 in
   l <- lift (str_lower (text features)) ;;
   let emotional_count := count_matching emotional_words l in
   let score := score + float_of_small emotional_count * 0.03 in
   c <- lift (chain_le_le 100 (length features) 200) ;;
   let score := if c then score + 0.1 else score in
   ret (py_max 0.0 (py_min 1.0 score)))%py.

Definition calculate_engagement_score (self : Self)
    (features : TweetFeatures) : M float :=
  if negb (is_initialized self) then raise not_initialized
  else
    try_except (engagement_body features)
      (fun e =>
         (print "Error calculating engagement score" e ;;;
          ret 0.3)%py).

Definition peak_hours : list Z := [9; 10; 12; 13; 17; 18; 19; 20; 21]%Z.

Definition timing_of_hour (hour : Z) : float :=
  if existsb (Z.eqb hour) peak_hours then 0.9
  else if ((8 <=? hour) && (hour <=? 22))%Z then 0.7
  else 0.4.

Definition calculate_timing_score : M float :=
  (hour <- now_hour ;; ret (timing_of_hour hour))%py.

Record Breakdown : Type := mkBreakdown {
  content_quality : float;
  social_signals : float;
  timing : float;
  user_reputation : float;
  safety_score : float
}.

Record AlgorithmScore : Type := mkScore {
  light_ranker_score : float;
  heavy_ranker_score : option float;
  toxicity_score : float;
  engagement_score : float;
  virality_score : Z;
  features : TweetFeatures;
  breakdown : Breakdown
}.

Definition breakdown_total (b : Breakdown) : float :=
  content_quality b + social_signals b + timing b + user_reputation b
  + safety_score b.

Definition calculate_virality_score (self : Self) (t : pyval)
    (metadata : option (list (string * pyval))) : M AlgorithmScore :=
  if negb (is_initialized self) then raise not_initialized
  else
    try_except
      (features <- extract_features t metadata ;;
       light_ranker_score <- calculate_light_ranker_score self features ;;
       toxicity_score <- calculate_toxicity_score self t ;;
       engagement_score <- calculate_engagement_score self features ;;
       timing_score <- calculate_timing_score ;;
       let breakdown :=
         mkBreakdown (light_ranker_score * 0.4) (engagement_score * 0.3)
                     timing_score 0.7 ((1 - toxicity_score) * 0.2) in
       virality_score <-
         lift (int_of_float (breakdown_total breakdown * 100)) ;;
       ret (mkScore light_ranker_score None toxicity_score engagement_score
                    virality_score features breakdown))%py
      (fun e =>
         (print "Error calculating virality score" e ;;;
          raise e)%py).

End Service.

(** ** Definitions used to state the properties *)

(** Bounds on a float read through its binary64 representation. *)
Module Bounds.

Local Open Scope Z_scope.

(** A float with sign [sx] that is zero or finite with exponent at most
    [E]. *)
Definition fits (sx : bool) (E : Z) (x : spec_float) : Prop :=
  match x with
  | S754_zero s => s = sx
  | S754_finite s _ e => s = sx /\ e <= E
  | _ => False
  end.

(** A float that is a zero, or positive and finite with exponent at most
    [E] (so below [2 ^ (E + 53)]). *)
Definition nn_exp (E : Z) (x : float) : Prop :=
  match Prim2SF x with
  | S754_zero _ => True
  | S754_finite false _ e => e <= E
  | _ => False
  end.

(** [v] is the integer part of the non-negative float [x]:
    [v <= x < v + 1], with [x = m * 2 ^ e]. *)
Definition floor_of (x : float) (v : Z) : Prop :=
match Prim2SF x with
| S754_zero _ => v = 0
| S754_finite false m e =>
    e <= 0 /\ v * 2 ^ (- e) <= Zpos m < (v + 1) * 2 ^ (- e)
| _ => False
end.

End Bounds.

(** What a run of the enhanced scorer computes, written without the monad:
    the pipeline is shown equal to it ([run_enhanced]). *)
Module Run.

Import PyFloat PyStr Env Enhanced.
Local Open Scope string_scope.
Local Open Scope float_scope.

(** The world after one value was drawn from the generator. *)
Definition after_draw (w : World) : World :=
mkWorld (clock_ms w) (clock_hour w) (rng_out w) (S (rng_pos w)) (stdout w).

Definition features_of (t : string) (w : World) : TweetFeatures :=
mkFeatures t (search_url t) (search_media t)
  (startswith t "RT @" || contains "via @" t) (startswith t "@")
  (len t) (count_tagged "#" t) (count_tagged "@" t)
  (count_char "?" t) (count_char "!" t) (clock_ms w) None None.

Definition reputation_of (t : string) (w : World) : float :=
py_max 0.3 (py_min 0.9 (sophistication t + rng_out w (rng_pos w))).

Definition breakdown_of (t : string) (w : World) : Breakdown :=
mkBreakdown
  (calculate_content_quality (features_of t w))
  (calculate_engagement_potential (features_of t w))
  (timing_of_hour (clock_hour w))
  (reputation_of t w)
  (safety_of t * 0.2).

Definition analysis_of (t : string) (w : World) (virality : Z) : Analysis :=
mkAnalysis
  (mkScore (calculate_content_quality (features_of t w)) None
           (toxicity_of t)
           (calculate_engagement_potential (features_of t w))
           virality (features_of t w) (breakdown_of t w))
  (generate_suggestions (breakdown_of t w) (features_of t w))
  "enhanced-ai-v2.0" 0.

(** [a <= b] on floats, as a proposition. *)
Definition fle (a b : float) : Prop := (a <=? b) = true.

(** The words of a list that occur in the lowered text. *)
Definition matching (words : list string) (t : string) : list string :=
filter (fun word => contains word (lower t)) words.

(** A post that pushes every sub-score up, scored at a peak hour with the
    largest draw. *)
Definition adversarial_text : string :=
"Breaking AI news: amazing, incredible launch! What do you think? Share your opinion and thoughts #ai #tech https://x.co/a @bob wow love".

Definition adversarial_world : World :=
mkWorld 1700000000000 9 (fun _ => 0.1) 0 [].

(** A post of thirty characters with keywords of all three tables, and an
    off-peak world. *)
Definition keyword_text : string := "ai wow love think opinion now!".

Definition offpeak_world : World :=
mkWorld 1700000000000 3 (fun _ => 0.05) 0 [].

(** Advice of the hashtag rule group (the other three groups give none). *)
Definition is_hashtag_advice (s : Suggestion) : bool :=
String.eqb (type_ s) "discoverability".

End Run.

(** The same for the service, on a string and with the service initialised. *)
Module ServiceRun.

Import PyFloat PyStr PyVal Env Service.
Local Open Scope string_scope.
Local Open Scope float_scope.

Definition features_of (s : string) (metadata : option (list (string * pyval)))
  (w : World) : TweetFeatures :=
mkFeatures (PStr s) (PBool (search_url s)) (PBool (search_media s))
  (PBool (startswith s "RT @" || contains "via @" s))
  (PBool (startswith s "@")) (PInt (len s))
  (PInt (count_tagged "#" s)) (PInt (count_tagged "@" s))
  (PInt (count_char "?" s)) (PInt (count_char "!" s))
  (PInt (clock_ms w)) (meta_get "authorId" metadata)
  (meta_get "tweetId" metadata).

(** The world after one error line was printed. *)
Definition printed (w : World) (prefix : string) (e : exn) : World :=
mkWorld (clock_ms w) (clock_hour w) (rng_out w) (rng_pos w)
        (stdout w ++ [(prefix, e)]).

(** What [calculate_toxicity_score] returns on a string. *)
Definition toxicity_of (s : string) : float :=
py_min (float_of_small (count_matching toxic_words (lower s)) * 0.2) 1.0.

(** A record whose fields were never filled in. *)
Definition blank_features : TweetFeatures :=
mkFeatures PNone PNone PNone PNone PNone PNone PNone PNone PNone PNone PNone
           PNone PNone.

End ServiceRun.

(** Finite enumeration of what the keyword loops can return. *)
Module Reach.
Import PyFloat PyStr Enhanced.
Local Open Scope float_scope.

Definition mem (x : float) (l : list float) : bool :=
existsb (Leibniz.eqb x) l.

Fixpoint dedup (l : list float) : list float :=
match l with
| [] => []
| x :: r => if mem x r then dedup r else x :: dedup r
end.

(** The values the accumulator of a loop
    [for word, s in table: if word in text: acc = step(acc, s)]
    can hold at its end, started from one of [accs]. *)
Fixpoint reach (step : float -> float -> float) (weights accs : list float)
  : list float :=
match weights with
| [] => accs
| s :: r => reach step r (dedup (accs ++ map (fun a => step a s) accs))
end.

Definition trending_values : list float :=
Eval vm_compute in reach py_max (map snd trending_topics) [0].

Definition emotional_values : list float :=
Eval vm_compute in
  dedup (map (fun s => py_min s 1) (reach add (map snd emotional_words) [0])).

Definition cta_values : list float :=
Eval vm_compute in
  dedup (map (fun s => py_min s 1) (reach add (map snd cta_words) [0])).


(** The loop of a sub-score, on tests that stand for [word in text]. *)
Definition scan (step : float -> float -> float) (test : string -> bool)
  (table : list (string * float)) (acc : float) : float :=
fold_left
  (fun a (item : string * float) =>
     if test (fst item) then step a (snd item) else a)
  table acc.

(** [content_quality] before the clamp, on the outcome of its tests. *)
Definition quality_total (b1 b2 b3 q e1 e2 : bool) (tr em ct : float)
  : float :=
let score := 0.3 in
let score :=
  if b1 then score + 0.3 else if b2 then score + 0.2
  else if b3 then score - 0.1 else score in
let score := score + tr * 0.2 in
let score := score + em * 0.15 in
let score := score + ct * 0.1 in
let score := if q then score + 0.1 else score in
if e1 then score + 0.05 else if e2 then score - 0.05 else score.

Definition quality_total_of (f : TweetFeatures) : float :=
quality_total
  ((100 <=? length f) && (length f <=? 200))%Z
  ((50 <=? length f) && (length f <=? 280))%Z
  (length f <? 50)%Z
  (question_mark_count f >? 0)%Z
  ((1 <=? exclamation_count f) && (exclamation_count f <=? 2))%Z
  (exclamation_count f >? 3)%Z
  (calculate_trending_score (text f))
  (calculate_emotional_score (text f))
  (calculate_cta_score (text f)).

Definition bools : list bool := [true; false].

(** [P] holds of every total the tests and the three scores can give. *)
Definition every_quality_total (P : float -> bool) : bool :=
forallb (fun b1 => forallb (fun b2 => forallb (fun b3 =>
forallb (fun q => forallb (fun e1 => forallb (fun e2 =>
forallb (fun tr => forallb (fun em => forallb (fun ct =>
  P (quality_total b1 b2 b3 q e1 e2 tr em ct))
cta_values) emotional_values) trending_values)
bools) bools) bools) bools) bools) bools.

(** The clamp as the specification words it. *)
Definition clamp (lo hi x : float) : float :=
if x <? lo then lo else if hi <? x then hi else x.

Definition in_interval (lo hi n : Z) : bool := ((lo <=? n) && (n <=? hi))%Z.

(** [content_quality] as the specification words it: a base of [0.3], the
    length term, the three weighted sub-scores, the question term, the
    exclamation term, and the total clamped to [[0, 1]]. *)
Definition content_quality_spec (f : TweetFeatures) : float :=
let total := 0.3 in
let total :=
  if in_interval 100 200 (length f) then total + 0.3
  else if in_interval 50 280 (length f) then total + 0.2
  else if (length f <? 50)%Z then total - 0.1
  else total in
let total := total + calculate_trending_score (text f) * 0.2
                   + calculate_emotional_score (text f) * 0.15
                   + calculate_cta_score (text f) * 0.1 in
let total := if (0 <? question_mark_count f)%Z then total + 0.1 else total in
let total :=
  if in_interval 1 2 (exclamation_count f) then total + 0.05
  else if (3 <? exclamation_count f)%Z then total - 0.05
  else total in
clamp 0 1 total.

(** No word of the three keyword tables occurs in the lowered text. *)
Definition keyword_free (t : string) : bool :=
forallb (fun word => negb (contains word (lower t)))
        (map fst trending_topics ++ map fst emotional_words
         ++ map fst cta_words).

End Reach.

(** ** Further definitions: flags of the keyword loops, the service's
    suggestions and entry point, and the values its sub-scores take *)

(** Quantities the further properties are stated with. *)
Module Shape.

Import PyStr.
Local Open Scope string_scope.
Local Open Scope Z_scope.

(** What the four counters of the extractor add up to, a tagged word
    weighing two (its sigil and its first word character). *)
Definition marks (s : string) : Z :=
2 * (count_tagged "#" s + count_tagged "@" s)
+ count_char "?" s + count_char "!" s.

Definition ind (b : bool) : Z := if b then 1 else 0.

(** A list with [label] in it when [c] holds, empty otherwise. *)
Definition when (c : bool) (label : string) : list string :=
if c then [label] else [].

End Shape.

Module Flags.

Import PyFloat PyStr Enhanced Reach.
Local Open Scope float_scope.

(** Every list of [n] booleans. *)
Fixpoint all_flags (n : nat) : list (list bool) :=
match n with
| O => [[]]
| S k => map (cons true) (all_flags k) ++ map (cons false) (all_flags k)
end.

(** The outcome of the test [word in text] for each entry of a table. *)
Definition flags_of (test : string -> bool) (table : list (string * float))
  : list bool :=
map (fun item => test (fst item)) table.

(** The keyword loop, run on the outcomes of its tests. *)
Fixpoint scan_flags (step : float -> float -> float) (flags : list bool)
  (table : list (string * float)) (acc : float) : float :=
match flags, table with
| b :: flags', item :: table' =>
    scan_flags step flags' table' (if b then step acc (snd item) else acc)
| _, _ => acc
end.

(** [r] is the largest weight among the flagged entries, [0] if there is
    none. *)
Definition is_max_flagged (flags : list bool) (table : list (string * float))
  (r : float) : bool :=
forallb (fun p : bool * (string * float) =>
           implb (fst p) (snd (snd p) <=? r))
        (combine flags table)
&& (if existsb (fun b => b) flags
    then existsb (fun p : bool * (string * float) =>
                    fst p && Leibniz.eqb r (snd (snd p)))
                 (combine flags table)
    else Leibniz.eqb r 0).

(** [r] is [0] when nothing is flagged, and otherwise at least the weight of
    every flagged entry and at most [1]. *)
Definition is_capped_sum (flags : list bool) (table : list (string * float))
  (r : float) : bool :=
forallb (fun p : bool * (string * float) =>
           implb (fst p) (snd (snd p) <=? r))
        (combine flags table)
&& (r <=? 1)
&& (if existsb (fun b => b) flags then 0 <? r else Leibniz.eqb r 0).

(** [engagement_potential] before the clamp, on the outcome of its tests. *)
Definition engagement_total (q h1 h2 m1 m2 url : bool) (ct em : float)
  : float :=
let score := 0.2 in
let score := if q then score + 0.25 else score in
let score := score + ct * 0.2 in
let score := score + em * 0.15 in
let score :=
  if h1 then score + 0.1 else if h2 then score - 0.1 else score in
let score :=
  if m1 then score + 0.05 else if m2 then score - 0.05 else score in
if url then score + 0.05 else score.

Definition engagement_total_of (f : TweetFeatures) : float :=
engagement_total
  (question_mark_count f >? 0)%Z
  ((1 <=? hashtag_count f) && (hashtag_count f <=? 3))%Z
  (hashtag_count f >? 5)%Z
  ((1 <=? mention_count f) && (mention_count f <=? 2))%Z
  (mention_count f >? 3)%Z
  (has_url f)
  (calculate_cta_score (text f))
  (calculate_emotional_score (text f)).

(** [P] holds of every total the tests and the two scores can give. *)
Definition every_engagement_total (P : float -> bool) : bool :=
forallb (fun q => forallb (fun h1 => forallb (fun h2 =>
forallb (fun m1 => forallb (fun m2 => forallb (fun url =>
forallb (fun ct => forallb (fun em =>
  P (engagement_total q h1 h2 m1 m2 url ct em))
emotional_values) cta_values)
bools) bools) bools) bools) bools) bools.

End Flags.

(** ** twitter_algorithm_service.py, continued *)

Module ServiceAdvice.

Import PyFloat PyStr PyVal Env Service.
Local Open Scope string_scope.
Local Open Scope float_scope.

Record AlgorithmSuggestion : Type := mkSuggestion {
  type_ : string;
  priority : string;
  suggestion : string;
  expected_improvement : Z
}.

Definition improve_content : AlgorithmSuggestion :=
mkSuggestion "content" "high"
  "Improve content quality by adding more engaging language or expanding the tweet"
  15.

Definition add_engagement : AlgorithmSuggestion :=
mkSuggestion "engagement" "high"
  "Add a question or call-to-action to encourage replies and engagement"
  20.

Definition post_at_peak : AlgorithmSuggestion :=
mkSuggestion "timing" "medium"
  "Consider posting during peak hours (9-10 AM, 12-1 PM, 5-6 PM, 7-9 PM)"
  10.

Definition reduce_offensive : AlgorithmSuggestion :=
mkSuggestion "safety" "high"
  "Reduce potentially offensive language to improve content safety score"
  25.

(** [generate_suggestions]: four independent rules, each appending one
    record. *)
Definition generate_suggestions (score : AlgorithmScore)
  : list AlgorithmSuggestion :=
let suggestions : list AlgorithmSuggestion := [] in
let suggestions :=
  if content_quality (breakdown score) <? 0.6
  then (suggestions ++ [improve_content])%list else suggestions in
let suggestions :=
  if social_signals (breakdown score) <? 0.5
  then (suggestions ++ [add_engagement])%list else suggestions in
let suggestions :=
  if timing (breakdown score) <? 0.7
  then (suggestions ++ [post_at_peak])%list else suggestions in
if 0.3 <? toxicity_score score
then (suggestions ++ [reduce_offensive])%list else suggestions.

(** What [run_full_analysis] returns: the enhanced scorer's result when
    that module can be imported, else a record built from the service's own
    score. *)
Inductive FullAnalysis : Type :=
| FromEnhanced (result : Enhanced.Analysis)
| FromService (score : AlgorithmScore)
              (suggestions : list AlgorithmSuggestion)
              (algorithm_version : string)
              (processing_time : Z).

(** [run_full_analysis].  [importable] says whether
    [from enhanced_algorithm import ...] succeeds ([ImportError] is the only
    exception the inner [except] catches); [elapsed] is what
    [int((time.time() - start_time) * 1000)] comes to at the end.  A text
    that is no [str] makes the enhanced scorer raise [TypeError] at its first
    [re.search]. *)
Definition run_full_analysis (importable : bool) (elapsed : Z) (self : Self)
    (t : pyval) (metadata : option (list (string * pyval)))
  : M FullAnalysis :=
try_except
  (if importable then
     match t with
     | PStr s =>
         (result <- Enhanced.calculate_virality_score s ;;
          ret (FromEnhanced result))%py
     | _ => raise TypeError
     end
   else
     (score <- calculate_virality_score self t metadata ;;
      let suggestions := generate_suggestions score in
      ret (FromService score suggestions "twitter-algorithm-v1.0" elapsed))%py)
  (fun e =>
     (print "Error running full analysis" e ;;;
      raise e)%py).

End ServiceAdvice.

Module ServiceEnum.

Import PyFloat PyStr PyVal Env Service ServiceRun ServiceAdvice Reach Flags.
Local Open Scope string_scope.
Local Open Scope float_scope.

(** The light ranker's score before the clamp, on the outcome of its
    tests. *)
Definition light_total
  (c_len c_q c_ex c_h c_m url media rt h5 m3 e3 : bool) : float :=
let score := 0.5 in
let score := if c_len then score + 0.1 else score in
let score := if c_q then score + 0.05 else score in
let score := if c_ex then score + 0.03 else score in
let score := if c_h then score + 0.08 else score in
let score := if c_m then score + 0.05 else score in
let score := if url then score + 0.02 else score in
let score := if media then score + 0.05 else score in
let score := if rt then score - 0.1 else score in
let score := if h5 then score - 0.1 else score in
let score := if m3 then score - 0.05 else score in
if e3 then score - 0.05 else score.

Definition light_of_flags (flags : list bool) : float :=
match flags with
| [c_len; c_q; c_ex; c_h; c_m; url; media; rt; h5; m3; e3] =>
    py_max 0 (py_min 1
      (light_total c_len c_q c_ex c_h c_m url media rt h5 m3 e3))
| _ => 0.5
end.

Definition light_of (s : string) : float :=
light_of_flags
  [ (50 <=? len s)%Z && (len s <=? 200)%Z;
    (0 <? count_char "?" s)%Z;
    (0 <? count_char "!" s)%Z && (count_char "!" s <=? 2)%Z;
    (1 <=? count_tagged "#" s)%Z && (count_tagged "#" s <=? 3)%Z;
    (1 <=? count_tagged "@" s)%Z && (count_tagged "@" s <=? 2)%Z;
    search_url s;
    search_media s;
    startswith s "RT @" || contains "via @" s;
    (5 <? count_tagged "#" s)%Z;
    (3 <? count_tagged "@" s)%Z;
    (3 <? count_char "!" s)%Z ].

(** The service's engagement score, on its tests and its two counts. *)
Definition engagement_of_counts (c_q : bool) (cta emotional : Z)
  (c_len : bool) : float :=
let score := 0.3 in
let score := if c_q then score + 0.2 else score in
let score := score + float_of_small cta * 0.05 in
let score := score + float_of_small emotional * 0.03 in
let score := if c_len then score + 0.1 else score in
py_max 0 (py_min 1 score).

Definition engagement_of (s : string) : float :=
engagement_of_counts
  (0 <? count_char "?" s)%Z
  (count_matching cta_words (lower s))
  (count_matching emotional_words (lower s))
  ((100 <=? len s)%Z && (len s <=? 200)%Z).

Definition upto (n : nat) : list Z := map Z.of_nat (seq 0 (S n)).

Definition light_values : list float :=
Eval vm_compute in dedup (map light_of_flags (all_flags 11)).

Definition engagement_values : list float :=
Eval vm_compute in
  dedup (flat_map (fun c_q => flat_map (fun cta => flat_map (fun emo =>
           map (engagement_of_counts c_q cta emo) bools)
         (upto 5)) (upto 7)) bools).

Definition toxicity_values : list float :=
Eval vm_compute in
  dedup (map (fun c => py_min (float_of_small c * 0.2) 1) (upto 14)).

Definition timing_values : list float := [0.9; 0.7; 0.4].

(** The score record of a run, given the integer the total is cut to. *)
Definition breakdown_of (s : string) (w : World) : Breakdown :=
mkBreakdown (light_of s * 0.4) (engagement_of s * 0.3)
            (timing_of_hour (clock_hour w)) 0.7
            ((1 - toxicity_of s) * 0.2).

Definition score_of (s : string) md (w : World) (v : Z) : AlgorithmScore :=
mkScore (light_of s) None (toxicity_of s) (engagement_of s) v
        (features_of s md w) (breakdown_of s w).

(** [P] holds of every combination of sub-scores a run can meet. *)
Definition every_service_score (P : float -> float -> float -> float -> bool)
  : bool :=
forallb (fun l => forallb (fun e => forallb (fun tm => forallb (fun tox =>
  P l e tm tox)
toxicity_values) timing_values) engagement_values) light_values.

Definition virality_of (l e tm tox : float) : result Z :=
int_of_float
  (breakdown_total (mkBreakdown (l * 0.4) (e * 0.3) tm 0.7 ((1 - tox) * 0.2))
   * 100).

End ServiceEnum.

(** * Properties *)

(** ** Binary64 arithmetic stays finite on small non-negative operands

  The composite score is [int(...)] of a float, and [int] raises on an
  infinity or a NaN.  That it never does here needs the rounding of
  [SpecFloat] followed through: an exact mantissa [m] at exponent [e] is
  shifted to the format's exponent, rounded, and shifted once more. *)

Module FloatFacts.
Import PyFloat Bounds.
Local Open Scope Z_scope.


Lemma digits2_pos_gt (m : positive) : Zpos m < 2 ^ Zpos (digits2_pos m).
Proof.
  induction m as [m IH | m IH | ]; simpl digits2_pos.
  - rewrite Pos2Z.inj_succ, Z.pow_succ_r by lia. lia.
  - rewrite Pos2Z.inj_succ, Z.pow_succ_r by lia. lia.
  - reflexivity.
Qed.

Lemma digits2_pos_le (m : positive) :
  forall k, 0 <= k -> Zpos m < 2 ^ k -> Zpos (digits2_pos m) <= k.
Proof.
  induction m as [m IH | m IH | ]; intros k Hk Hm; simpl digits2_pos.
  - assert (k <> 0) by (intros ->; simpl in Hm; lia).
    replace k with (Z.succ (k - 1)) in Hm by lia.
    rewrite Z.pow_succ_r in Hm by lia.
    specialize (IH (k - 1)). rewrite Pos2Z.inj_succ. lia.
  - assert (k <> 0) by (intros ->; simpl in Hm; lia).
    replace k with (Z.succ (k - 1)) in Hm by lia.
    rewrite Z.pow_succ_r in Hm by lia.
    specialize (IH (k - 1)). rewrite Pos2Z.inj_succ. lia.
  - assert (k <> 0) by (intros ->; simpl in Hm; lia). lia.
Qed.

Lemma Zdigits2_le (m k : Z) :
  0 <= m -> 0 <= k -> m < 2 ^ k -> Zdigits2 m <= k.
Proof.
  intros Hm Hk Hlt. destruct m as [ | p | p]; simpl; try lia.
  now apply digits2_pos_le.
Qed.

Lemma Zdigits2_gt (m : Z) : 0 <= m -> m < 2 ^ Zdigits2 m.
Proof.
  intros Hm. destruct m as [ | p | p]; simpl; try lia.
  apply digits2_pos_gt.
Qed.

Lemma Zdigits2_nonneg (m : Z) : 0 <= Zdigits2 m.
Proof. destruct m; simpl; lia. Qed.

(** Shifting right: the mantissa of the record is divided. *)
Lemma shr_1_m (r : shr_record) :
  0 <= shr_m r -> shr_m (shr_1 r) = shr_m r / 2.
Proof.
  destruct r as [m rb sb]; simpl. intros Hm.
  destruct m as [ | [p | p | ] | p]; cbn [shr_m] in *; try lia.
  - reflexivity.
  - apply Z.div_unique with (r := 1); lia.
  - apply Z.div_unique with (r := 0); lia.
  - reflexivity.
Qed.

Lemma iter_shr_1_m (p : positive) :
  forall r, 0 <= shr_m r ->
    shr_m (iter_pos shr_1 p r) = shr_m r / 2 ^ Zpos p.
Proof.
  induction p as [p IH | p IH | ]; intros r Hr; simpl iter_pos.
  - assert (Hp : 0 < 2 ^ Zpos p) by (apply Z.pow_pos_nonneg; lia).
    assert (H1 : 0 <= shr_m (shr_1 r)).
    { rewrite shr_1_m by assumption. apply Z.div_pos; lia. }
    assert (H2 : 0 <= shr_m (iter_pos shr_1 p (shr_1 r))).
    { rewrite IH by assumption. apply Z.div_pos; lia. }
    assert (E : 2 ^ Z.pos p~1 = 2 * (2 ^ Z.pos p * 2 ^ Z.pos p)).
    { rewrite Pos2Z.inj_xI.
      replace (2 * Z.pos p + 1) with (Z.succ (Z.pos p + Z.pos p)) by lia.
      rewrite Z.pow_succ_r, Z.pow_add_r by lia. ring. }
    rewrite IH, IH, shr_1_m, E by assumption.
    rewrite Z.div_div by lia. rewrite Z.div_div by lia. reflexivity.
  - assert (Hp : 0 < 2 ^ Zpos p) by (apply Z.pow_pos_nonneg; lia).
    assert (H2 : 0 <= shr_m (iter_pos shr_1 p r)).
    { rewrite IH by assumption. apply Z.div_pos; lia. }
    assert (E : 2 ^ Z.pos p~0 = 2 ^ Z.pos p * 2 ^ Z.pos p).
    { replace (Z.pos p~0) with (Z.pos p + Z.pos p) by lia.
      rewrite Z.pow_add_r by lia. ring. }
    rewrite IH, IH, E by assumption.
    rewrite Z.div_div by lia. reflexivity.
  - now rewrite shr_1_m.
Qed.

Lemma fexp64_eq (z : Z) : fexp prec emax z = Z.max (z - 53) (-1074).
Proof. reflexivity. Qed.

Lemma Zdigits2_div_pow2 (m : Z) (p : positive) :
  0 <= m -> Zdigits2 (m / 2 ^ Zpos p) <= Z.max 0 (Zdigits2 m - Zpos p).
Proof.
  intros Hm.
  assert (Hp : 0 < 2 ^ Zpos p) by (apply Z.pow_pos_nonneg; lia).
  pose proof (Zdigits2_gt m Hm) as Hd.
  pose proof (Zdigits2_nonneg m) as Hn.
  assert (Hq : 0 <= m / 2 ^ Zpos p) by (apply Z.div_pos; lia).
  destruct (Z_lt_le_dec (Zdigits2 m) (Zpos p)) as [Hlt | Hge].
  - assert (Hs : m < 2 ^ Zpos p).
    { apply Z.lt_le_trans with (1 := Hd). apply Z.pow_le_mono_r; lia. }
    rewrite Z.div_small by lia. simpl. lia.
  - apply Z.le_trans with (Zdigits2 m - Zpos p); [ | lia].
    apply Zdigits2_le; try lia.
    apply Z.div_lt_upper_bound; [lia | ].
    rewrite <- Z.pow_add_r by lia.
    replace (Zpos p + (Zdigits2 m - Zpos p)) with (Zdigits2 m) by lia.
    exact Hd.
Qed.

(** One normalising shift of an exact mantissa. *)
Lemma shr_fexp_exact (m e : Z) (r : shr_record) (e' : Z) :
  0 <= m ->
  shr_fexp prec emax m e loc_Exact = (r, e') ->
  0 <= shr_m r /\ shr_m r <= m
  /\ e' = Z.max e (fexp prec emax (Zdigits2 m + e))
  /\ Zdigits2 (shr_m r) + e' <= Z.max (Zdigits2 m + e) e'.
Proof.
  intros Hm. unfold shr_fexp, shr. cbn [shr_record_of_loc].
  destruct (fexp prec emax (Zdigits2 m + e) - e) as [ | p | p] eqn:En;
    intros H; injection H as <- <-; cbn [shr_m].
  - repeat split; lia.
  - assert (Hp : 0 < 2 ^ Zpos p) by (apply Z.pow_pos_nonneg; lia).
    rewrite iter_shr_1_m by (cbn [shr_m]; lia). cbn [shr_m].
    pose proof (Zdigits2_div_pow2 m p Hm) as Hd.
    repeat split.
    + apply Z.div_pos; lia.
    + apply Z.div_le_upper_bound; [lia | ]. nia.
    + lia.
    + lia.
  - repeat split; lia.
Qed.

Lemma round_nearest_even_bounds (m : Z) (l : location) :
  m <= round_nearest_even m l <= m + 1.
Proof.
  destruct l as [ | [ | | ]]; simpl; try destruct (Z.even m); lia.
Qed.

Lemma Zdigits2_succ (m m' : Z) :
  0 <= m -> 0 <= m' <= m + 1 -> Zdigits2 m' <= Zdigits2 m + 1.
Proof.
  intros Hm Hm'.
  pose proof (Zdigits2_gt m Hm) as Hd.
  pose proof (Zdigits2_nonneg m) as Hn.
  apply Zdigits2_le; try lia.
  rewrite Z.pow_add_r by lia. simpl (2 ^ 1). lia.
Qed.


Lemma binary_round_aux_fits (sx : bool) (m e E : Z) :
  0 < m -> e <= E -> Zdigits2 m + e - 52 <= E -> -1074 <= E <= 971 ->
  fits sx E (binary_round_aux prec emax sx m e loc_Exact).
Proof.
  intros Hm He Hd HE. unfold binary_round_aux.
  destruct (shr_fexp prec emax m e loc_Exact) as [r1 e1] eqn:H1.
  destruct (shr_fexp_exact m e r1 e1 ltac:(lia) H1) as (Hr1 & _ & He1 & Hd1).
  set (m' := round_nearest_even (shr_m r1) (loc_of_shr_record r1)).
  pose proof (round_nearest_even_bounds (shr_m r1) (loc_of_shr_record r1))
    as Hm'. fold m' in Hm'.
  pose proof (Zdigits2_succ (shr_m r1) m' Hr1 ltac:(lia)) as Hd'.
  destruct (shr_fexp prec emax m' e1 loc_Exact) as [r2 e2] eqn:H2.
  destruct (shr_fexp_exact m' e1 r2 e2 ltac:(lia) H2) as (Hr2 & _ & He2 & _).
  rewrite fexp64_eq in He1, He2.
  destruct (shr_m r2) as [ | q | q].
  - reflexivity.
  - replace (e2 <=? emax - prec) with true
      by (symmetry; apply Z.leb_le; change (emax - prec) with 971; lia).
    unfold fits. split; [reflexivity | lia].
  - lia.
Qed.

Lemma shl_align_spec (mx : positive) (ex ex' : Z) :
  snd (shl_align mx ex ex') <= ex
  /\ Zpos (fst (shl_align mx ex ex'))
     = Zpos mx * 2 ^ (ex - snd (shl_align mx ex ex')).
Proof.
  unfold shl_align.
  destruct (ex' - ex) as [ | d | d] eqn:Ed; cbn [fst snd].
  - rewrite Z.sub_diag. simpl. lia.
  - rewrite Z.sub_diag. simpl. lia.
  - split; [lia | ].
    replace (ex - ex') with (Zpos d) by lia.
    clear Ed. revert mx. induction d using Pos.peano_ind; intros mx.
    + simpl. lia.
    + rewrite Pos.iter_succ, Pos2Z.inj_xO, IHd, Pos2Z.inj_succ, Z.pow_succ_r
        by lia. ring.
Qed.

Lemma Zdigits2_mul_pow2 (m k D : Z) :
  0 <= m -> 0 <= k -> 0 <= D -> m < 2 ^ D -> m * 2 ^ k < 2 ^ (D + k).
Proof.
  intros Hm Hk HD Hlt.
  assert (Hp : 0 < 2 ^ k) by (apply Z.pow_pos_nonneg; lia).
  rewrite Z.pow_add_r by lia. nia.
Qed.

Lemma binary_round_fits (sx : bool) (m : positive) (e E : Z) :
  e <= E -> Zpos (digits2_pos m) + e - 52 <= E -> -1074 <= E <= 971 ->
  fits sx E (binary_round prec emax sx m e).
Proof.
  intros He Hd HE. unfold binary_round.
  pose proof (shl_align_spec m e (fexp prec emax (Zpos (digits2_pos m) + e)))
    as [Hs Hv].
  destruct (shl_align m e (fexp prec emax (Zpos (digits2_pos m) + e)))
    as [mz ez]. cbn [fst snd] in Hs, Hv.
  apply binary_round_aux_fits; try lia.
  assert (Hz : Zdigits2 (Zpos mz) <= Zpos (digits2_pos m) + (e - ez)).
  { apply Zdigits2_le; try lia. rewrite Hv.
    apply Zdigits2_mul_pow2; try lia. apply digits2_pos_gt. }
  lia.
Qed.

Lemma valid_digits (s : bool) (m : positive) (e : Z) :
  valid_binary (S754_finite s m e) = true -> Zpos (digits2_pos m) <= 53.
Proof.
  unfold SpecFloat.valid_binary, bounded, canonical_mantissa.
  rewrite andb_true_iff, Z.eqb_eq, fexp64_eq. lia.
Qed.


Lemma fits_nn_exp (E : Z) (x : float) :
  fits false E (Prim2SF x) -> nn_exp E x.
Proof.
  unfold fits, nn_exp. destruct (Prim2SF x) as [s | s | | s m e]; try easy.
  intros [-> He]. exact He.
Qed.

Lemma nn_exp_weaken (E E' : Z) (x : float) :
  E <= E' -> nn_exp E x -> nn_exp E' x.
Proof.
  unfold nn_exp. destruct (Prim2SF x) as [s | s | | [ | ] m e]; try easy. lia.
Qed.

Lemma nn_exp_add (E1 E2 E : Z) (x y : float) :
  nn_exp E1 x -> nn_exp E2 y ->
  E1 + 2 <= E -> E2 + 2 <= E -> -1074 <= E <= 971 ->
  nn_exp E (x + y)%float.
Proof.
  intros Hx Hy H1 H2 HE.
  pose proof (Prim2SF_valid x) as Vx. pose proof (Prim2SF_valid y) as Vy.
  unfold nn_exp in Hx, Hy.
  destruct (Prim2SF x) as [sx | sx | | sx mx ex] eqn:Ex; try easy;
    destruct (Prim2SF y) as [sy | sy | | sy my ey] eqn:Ey; try easy.
  - unfold nn_exp. rewrite add_spec, Ex, Ey. unfold SF64add, SFadd.
    now destruct sx, sy.
  - apply nn_exp_weaken with E2; [lia | ].
    unfold nn_exp. rewrite add_spec, Ex, Ey. exact Hy.
  - apply nn_exp_weaken with E1; [lia | ].
    unfold nn_exp. rewrite add_spec, Ex, Ey. exact Hx.
  - destruct sx; [easy | ]. destruct sy; [easy | ].
    apply fits_nn_exp. rewrite add_spec, Ex, Ey. unfold SF64add, SFadd.
    apply valid_digits in Vx, Vy.
    pose proof (digits2_pos_gt mx) as Gx. pose proof (digits2_pos_gt my) as Gy.
    set (ez := Z.min ex ey).
    destruct (shl_align_spec mx ex ez) as [_ Ax].
    destruct (shl_align_spec my ey ez) as [_ Ay].
    assert (Sx : snd (shl_align mx ex ez) = ez).
    { unfold shl_align. destruct (ez - ex) eqn:?; cbn [snd]; lia. }
    assert (Sy : snd (shl_align my ey ez) = ez).
    { unfold shl_align. destruct (ez - ey) eqn:?; cbn [snd]; lia. }
    rewrite Sx in Ax. rewrite Sy in Ay.
    cbn [cond_Zopp]. rewrite <- Pos2Z.inj_add. cbn [binary_normalize].
    assert (Bx : Zpos (fst (shl_align mx ex ez)) < 2 ^ (53 + (ex - ez))).
    { rewrite Ax. apply Zdigits2_mul_pow2; try lia.
      apply Z.lt_le_trans with (1 := Gx). apply Z.pow_le_mono_r; lia. }
    assert (By : Zpos (fst (shl_align my ey ez)) < 2 ^ (53 + (ey - ez))).
    { rewrite Ay. apply Zdigits2_mul_pow2; try lia.
      apply Z.lt_le_trans with (1 := Gy). apply Z.pow_le_mono_r; lia. }
    set (k := Z.max ex ey - ez).
    assert (Bs : Zpos (fst (shl_align mx ex ez) + fst (shl_align my ey ez))
                 < 2 ^ (54 + k)).
    { rewrite Pos2Z.inj_add.
      assert (2 ^ (53 + (ex - ez)) <= 2 ^ (53 + k))
        by (apply Z.pow_le_mono_r; lia).
      assert (2 ^ (53 + (ey - ez)) <= 2 ^ (53 + k))
        by (apply Z.pow_le_mono_r; lia).
      replace (54 + k) with (Z.succ (53 + k)) by lia.
      rewrite Z.pow_succ_r by lia. lia. }
    apply digits2_pos_le in Bs; [ | lia].
    apply binary_round_fits; lia.
Qed.

Lemma nn_exp_mul (E1 E2 E : Z) (x y : float) :
  nn_exp E1 x -> nn_exp E2 y ->
  E1 + E2 + 54 <= E -> -1074 <= E <= 971 ->
  nn_exp E (x * y)%float.
Proof.
  intros Hx Hy H1 HE.
  pose proof (Prim2SF_valid x) as Vx. pose proof (Prim2SF_valid y) as Vy.
  unfold nn_exp in Hx, Hy.
  destruct (Prim2SF x) as [sx | sx | | sx mx ex] eqn:Ex; try easy;
    destruct (Prim2SF y) as [sy | sy | | sy my ey] eqn:Ey; try easy;
    try (unfold nn_exp; rewrite mul_spec, Ex, Ey; exact I).
  destruct sx; [easy | ]. destruct sy; [easy | ].
  apply fits_nn_exp. rewrite mul_spec, Ex, Ey. unfold SF64mul, SFmul.
  cbn [xorb].
  apply valid_digits in Vx, Vy.
  pose proof (digits2_pos_gt mx) as Gx. pose proof (digits2_pos_gt my) as Gy.
  assert (Bx : Zpos mx < 2 ^ 53).
  { apply Z.lt_le_trans with (1 := Gx). apply Z.pow_le_mono_r; lia. }
  assert (By : Zpos my < 2 ^ 53).
  { apply Z.lt_le_trans with (1 := Gy). apply Z.pow_le_mono_r; lia. }
  assert (Bm : Zpos (mx * my) < 2 ^ 106).
  { rewrite Pos2Z.inj_mul. change (2 ^ 106) with (2 ^ 53 * 2 ^ 53). nia. }
  apply Zdigits2_le in Bm; try lia.
  apply binary_round_aux_fits; lia.
Qed.

Lemma nn_exp_range (hi x : float) (mh : positive) (eh : Z) :
  Prim2SF hi = S754_finite false mh eh ->
  (0 <=? x)%float = true -> (x <=? hi)%float = true -> nn_exp eh x.
Proof.
  intros Hhi. rewrite !leb_spec, Hhi.
  change (Prim2SF 0) with (S754_zero false).
  unfold nn_exp, SFleb, SFcompare.
  destruct (Prim2SF x) as [s | [ | ] | | [ | ] m e]; try easy.
  intros _. destruct (e ?= eh) eqn:C; try easy.
  - apply Z.compare_eq in C. lia.
  - rewrite Z.compare_lt_iff in C. lia.
Qed.

(** [int()] of such a float succeeds, with a small non-negative value. *)
Lemma nn_exp_int (E : Z) (x : float) :
  nn_exp E x -> -53 <= E <= 0 ->
  exists v : Z, int_of_float x = Ok v /\ 0 <= v < 2 ^ (E + 53).
Proof.
  intros Hx HE. pose proof (Prim2SF_valid x) as Vx.
  unfold nn_exp in Hx. unfold int_of_float.
  destruct (Prim2SF x) as [s | s | | [ | ] m e]; try easy.
  - exists 0. split; [reflexivity | ]. split; [lia | ].
    apply Z.pow_pos_nonneg; lia.
  - apply valid_digits in Vx. pose proof (digits2_pos_gt m) as G.
    exists (Z.shiftl (Zpos m) e). split; [reflexivity | ].
    split; [apply Z.shiftl_nonneg; lia | ].
    assert (B : Zpos m < 2 ^ 53).
    { apply Z.lt_le_trans with (1 := G). apply Z.pow_le_mono_r; lia. }
    rewrite <- Z.shiftr_opp_r, Z.shiftr_div_pow2 by lia.
    apply Z.div_lt_upper_bound; [apply Z.pow_pos_nonneg; lia | ].
    rewrite <- Z.pow_add_r by lia.
    apply Z.lt_le_trans with (1 := B). apply Z.pow_le_mono_r; lia.
Qed.
(** Five summands below [2] add up, times [100], to a finite float. *)
Lemma scaled_sum_nn_exp (a b c d e : float) :
nn_exp (-52) a -> nn_exp (-52) b -> nn_exp (-52) c -> nn_exp (-52) d ->
nn_exp (-52) e ->
nn_exp (-36) ((a + b + c + d + e) * 100)%float.
Proof.
intros Ha Hb Hc Hd He.
apply nn_exp_mul with (E1 := -44) (E2 := -46); try lia.
- apply nn_exp_add with (E1 := -46) (E2 := -52); try lia; [ | assumption].
  apply nn_exp_add with (E1 := -48) (E2 := -52); try lia; [ | assumption].
  apply nn_exp_add with (E1 := -50) (E2 := -52); try lia; [ | assumption].
  apply nn_exp_add with (E1 := -52) (E2 := -52); try lia; assumption.
- unfold nn_exp.
  change (Prim2SF 100) with (S754_finite false 7036874417766400 (-46)).
  cbv beta iota. lia.
Qed.

Lemma unit_nn_exp (x : float) :
(0 <=? x)%float = true -> (x <=? 1)%float = true -> nn_exp (-52) x.
Proof.
intros H0 H1.
exact (nn_exp_range 1 x 4503599627370496 (-52) eq_refl H0 H1).
Qed.

(** On such a float [int()] is the integer part. *)
Lemma nn_exp_floor (E : Z) (x : float) (v : Z) :
nn_exp E x -> E <= 0 -> int_of_float x = Ok v -> floor_of x v.
Proof.
unfold nn_exp, int_of_float, floor_of. intros Hx HE.
destruct (Prim2SF x) as [s | s | | [ | ] m e]; try easy.
- intros H. injection H as <-. reflexivity.
- intros H. injection H as <-. cbn [cond_Zopp].
  assert (Hp : 0 < 2 ^ (- e)) by (apply Z.pow_pos_nonneg; lia).
  rewrite <- Z.shiftr_opp_r, Z.shiftr_div_pow2 by lia.
  split; [lia | ].
  pose proof (Z.mul_div_le (Zpos m) (2 ^ (- e)) Hp).
  pose proof (Z.mul_succ_div_gt (Zpos m) (2 ^ (- e)) Hp).
  lia.
Qed.

End FloatFacts.

(** ** Comparisons and clamps *)

Module ClampFacts.

Import PyFloat Run.
Local Open Scope float_scope.

Lemma ltb_leb (a b : float) : (a <? b) = true -> (a <=? b) = true.
Proof.
rewrite ltb_spec, leb_spec. unfold SFltb, SFleb.
destruct (SFcompare (Prim2SF a) (Prim2SF b)) as [[ | | ] | ]; easy.
Qed.

(** [max(lo, min(hi, s))] lies in [[lo, hi]] whatever [s] is, NaN included. *)
Lemma py_clamp_range (lo hi s : float) :
fle lo lo -> fle hi hi -> fle lo hi ->
fle lo (py_max lo (py_min hi s)) /\ fle (py_max lo (py_min hi s)) hi.
Proof.
unfold fle, py_max, py_min. intros Hlo Hhi Hlh.
destruct (s <? hi) eqn:E1.
- destruct (lo <? s) eqn:E2; split; auto using ltb_leb.
- destruct (lo <? hi) eqn:E2; split; auto.
Qed.

(** The result of the clamp is one of its bounds or the clamped value. *)
Lemma py_clamp_cases (lo hi s : float) :
py_max lo (py_min hi s) = lo \/ py_max lo (py_min hi s) = hi
\/ py_max lo (py_min hi s) = s.
Proof.
unfold py_max, py_min.
destruct (s <? hi); [destruct (lo <? s) | destruct (lo <? hi)]; auto.
Qed.

(** Between two positive finite floats: positive, finite, and with an
    exponent no larger than the upper bound's. *)
Lemma between_finite (lo hi x : float) (ml mh : positive) (el eh : Z) :
Prim2SF lo = S754_finite false ml el ->
Prim2SF hi = S754_finite false mh eh ->
fle lo x -> fle x hi ->
exists (m : positive) (e : Z),
  Prim2SF x = S754_finite false m e /\ (el <= e <= eh)%Z.
Proof.
unfold fle. intros Hlo Hhi. rewrite !leb_spec, Hlo, Hhi.
unfold SFleb, SFcompare.
destruct (Prim2SF x) as [s | [ | ] | | [ | ] m e]; try easy.
intros H1 H2. exists m, e. split; [reflexivity | ].
destruct (Z.compare_spec el e); destruct (Z.compare_spec e eh);
  try easy; lia.
Qed.

(** A value clamped to [[0.3, 0.9]] is in [[0, 1]]. *)
Lemma reputation_range_unit (x : float) :
fle 0.3 x -> fle x 0.9 -> fle 0 x /\ fle x 1.
Proof.
intros H1 H2.
destruct (between_finite 0.3 0.9 x 5404319552844595 8106479329266893
            (-54) (-53) eq_refl eq_refl H1 H2) as (m & e & Hx & He).
unfold fle. rewrite !leb_spec, Hx.
change (Prim2SF 0) with (S754_zero false).
change (Prim2SF 1) with (S754_finite false 4503599627370496 (-52)).
unfold SFleb, SFcompare. split; [reflexivity | ].
destruct (Z.compare_spec e (-52)); try easy; lia.
Qed.

End ClampFacts.

(** ** The values the keyword loops reach *)

Module ReachFacts.
Import PyFloat PyStr Enhanced Reach.
Local Open Scope float_scope.

Lemma mem_In (x : float) (l : list float) : mem x l = true <-> In x l.
Proof.
unfold mem. rewrite existsb_exists. split.
- intros (y & Hy & E). apply Leibniz.eqb_spec in E. now subst.
- intros H. exists x. split; [exact H | now apply Leibniz.eqb_spec].
Qed.

Lemma dedup_In (x : float) (l : list float) : In x l -> In x (dedup l).
Proof.
induction l as [ | y r IH]; [easy | ]. intros [-> | H]; cbn [dedup].
- destruct (mem x r) eqn:E; [ | now left].
  apply IH. now apply mem_In.
- destruct (mem y r); [now apply IH | right; now apply IH].
Qed.

Lemma reach_sound (step : float -> float -> float) (test : string -> bool)
  (table : list (string * float)) :
forall (acc : float) (accs : list float),
  In acc accs ->
  In (scan step test table acc) (reach step (map snd table) accs).
Proof.
induction table as [ | [word s] r IH]; intros acc accs Hacc; [exact Hacc | ].
cbn [scan fold_left map reach fst snd]. apply IH. apply dedup_In.
apply in_or_app. destruct (test word); [right | now left].
now apply (in_map (fun a => step a s)).
Qed.

Lemma trending_in (t : string) :
In (calculate_trending_score t) trending_values.
Proof.
apply (reach_sound py_max (fun word => contains word (lower t))
         trending_topics 0 [0]). now left.
Qed.

Lemma emotional_in (t : string) :
In (calculate_emotional_score t) emotional_values.
Proof.
unfold calculate_emotional_score. cbv zeta.
change emotional_values
  with (dedup (map (fun s => py_min s 1)
                   (reach add (map snd emotional_words) [0]))).
apply dedup_In. apply (in_map (fun s => py_min s 1)).
apply (reach_sound add (fun word => contains word (lower t))
         emotional_words 0 [0]). now left.
Qed.

Lemma cta_in (t : string) : In (calculate_cta_score t) cta_values.
Proof.
unfold calculate_cta_score. cbv zeta.
change cta_values
  with (dedup (map (fun s => py_min s 1) (reach add (map snd cta_words) [0]))).
apply dedup_In. apply (in_map (fun s => py_min s 1)).
apply (reach_sound add (fun word => contains word (lower t))
         cta_words 0 [0]). now left.
Qed.

Lemma content_quality_total (f : TweetFeatures) :
calculate_content_quality f = py_max 0 (py_min 1 (quality_total_of f)).
Proof. reflexivity. Qed.

Lemma in_bools (b : bool) : In b bools.
Proof. destruct b; simpl; auto. Qed.

Lemma forallb_at {A : Type} (P : A -> bool) (l : list A) (x : A) :
forallb P l = true -> In x l -> P x = true.
Proof. intros H. now apply forallb_forall. Qed.

Lemma every_quality_total_sound (P : float -> bool) :
every_quality_total P = true ->
forall f : TweetFeatures, P (quality_total_of f) = true.
Proof.
unfold every_quality_total, quality_total_of. intros H f.
pose proof (trending_in (text f)) as Htr.
pose proof (emotional_in (text f)) as Hem.
pose proof (cta_in (text f)) as Hct.
revert Htr Hem Hct.
generalize (calculate_cta_score (text f)) as ct.
generalize (calculate_emotional_score (text f)) as em.
generalize (calculate_trending_score (text f)) as tr.
generalize (exclamation_count f >? 3)%Z as e2.
generalize ((1 <=? exclamation_count f) && (exclamation_count f <=? 2))%Z
  as e1.
generalize (question_mark_count f >? 0)%Z as q.
generalize (length f <? 50)%Z as b3.
generalize ((50 <=? length f) && (length f <=? 280))%Z as b2.
generalize ((100 <=? length f) && (length f <=? 200))%Z as b1.
intros b1 b2 b3 q e1 e2 tr em ct Htr Hem Hct.
apply (forallb_at _ _ b1) in H; [ | apply in_bools].
apply (forallb_at _ _ b2) in H; [ | apply in_bools].
apply (forallb_at _ _ b3) in H; [ | apply in_bools].
apply (forallb_at _ _ q) in H; [ | apply in_bools].
apply (forallb_at _ _ e1) in H; [ | apply in_bools].
apply (forallb_at _ _ e2) in H; [ | apply in_bools].
apply (forallb_at _ _ tr) in H; [ | exact Htr].
apply (forallb_at _ _ em) in H; [ | exact Hem].
apply (forallb_at _ _ ct) in H; [ | exact Hct].
exact H.
Qed.

Lemma clamp_agrees_on_totals (f : TweetFeatures) :
py_max 0 (py_min 1 (quality_total_of f)) = clamp 0 1 (quality_total_of f).
Proof.
apply Leibniz.eqb_spec.
apply (every_quality_total_sound
         (fun s => Leibniz.eqb (py_max 0 (py_min 1 s)) (clamp 0 1 s))).
vm_compute. reflexivity.
Qed.

Lemma scan_none (step : float -> float -> float) (test : string -> bool)
  (table : list (string * float)) (acc : float) :
forallb (fun word => negb (test word)) (map fst table) = true ->
scan step test table acc = acc.
Proof.
induction table as [ | [word s] r IH]; [easy | ].
cbn [map fst forallb scan fold_left snd].
intros H. apply andb_true_iff in H as [H1 H2].
apply negb_true_iff in H1. rewrite H1. now apply IH.
Qed.

Lemma keyword_free_scores (t : string) :
keyword_free t = true ->
calculate_trending_score t = 0
/\ calculate_emotional_score t = 0
/\ calculate_cta_score t = 0.
Proof.
unfold keyword_free. rewrite !forallb_app, !andb_true_iff.
intros (Ht & He & Hc).
unfold calculate_emotional_score, calculate_cta_score. cbv zeta.
change (calculate_trending_score t)
  with (scan py_max (fun word => contains word (lower t)) trending_topics 0).
change (sum_matching emotional_words (lower t))
  with (scan add (fun word => contains word (lower t)) emotional_words 0).
change (sum_matching cta_words (lower t))
  with (scan add (fun word => contains word (lower t)) cta_words 0).
now rewrite !scan_none.
Qed.

End ReachFacts.

(** ** The enhanced scorer, step by step *)

Module EnhancedFacts.

Import PyFloat PyStr Env Enhanced Run Bounds Reach.
Import FloatFacts ClampFacts ReachFacts.
Local Open Scope string_scope.
Local Open Scope float_scope.

(** The monadic pipeline is [analysis_of], the only fallible step being the
    final [int(...)]; one random value is drawn and nothing else changes. *)
Lemma run_enhanced (t : string) (w : World) :
calculate_virality_score t w =
match int_of_float (breakdown_total (breakdown_of t w) * 100) with
| Ok v => (Ok (analysis_of t w v), after_draw w)
| Raise e => (Raise e, after_draw w)
end.
Proof. reflexivity. Qed.

Lemma content_quality_range (f : TweetFeatures) :
fle 0 (calculate_content_quality f) /\ fle (calculate_content_quality f) 1.
Proof.
unfold calculate_content_quality. cbv zeta.
now apply py_clamp_range.
Qed.

Lemma engagement_range (f : TweetFeatures) :
fle 0 (calculate_engagement_potential f)
/\ fle (calculate_engagement_potential f) 1.
Proof.
unfold calculate_engagement_potential. cbv zeta.
now apply py_clamp_range.
Qed.

Lemma timing_cases (hour : Z) :
In (timing_of_hour hour) [0.9; 0.85; 0.8; 0.75; 0.6; 0.3].
Proof.
unfold timing_of_hour.
repeat match goal with
       | |- context [if ?c then _ else _] => destruct c
       end; simpl; auto 10.
Qed.

Lemma timing_range (hour : Z) :
fle 0 (timing_of_hour hour) /\ fle (timing_of_hour hour) 1.
Proof.
pose proof (timing_cases hour) as H. simpl in H.
repeat (destruct H as [<- | H]; [now split | ]). destruct H.
Qed.

Lemma reputation_range (t : string) (w : World) :
fle 0.3 (reputation_of t w) /\ fle (reputation_of t w) 0.9.
Proof. unfold reputation_of. now apply py_clamp_range. Qed.

Ltac case_contains :=
repeat match goal with
       | |- context [contains ?word ?hay] => destruct (contains word hay)
       end.

Ltac pick := repeat first [left; reflexivity | right].

Lemma toxicity_cases (t : string) :
In (toxicity_of t)
   [0; 0.2; 0.2 + 0.2; 0.2 + 0.2 + 0.2; 0.2 + 0.2 + 0.2 + 0.2;
    0.2 + 0.2 + 0.2 + 0.2 + 0.2].
Proof.
unfold toxicity_of, toxic_words. cbn [fold_left].
case_contains; vm_compute; pick.
Qed.

Lemma safety_range (t : string) :
fle 0 (safety_of t * 0.2) /\ fle (safety_of t * 0.2) 0.2.
Proof.
unfold safety_of. pose proof (toxicity_cases t) as H. simpl in H.
repeat (destruct H as [<- | H]; [now split | ]). destruct H.
Qed.

(** The float the composite score is cut from is finite and non-negative. *)
Lemma total_nn_exp (t : string) (w : World) :
nn_exp (-36) (breakdown_total (breakdown_of t w) * 100).
Proof.
destruct (content_quality_range (features_of t w)) as [C0 C1].
destruct (engagement_range (features_of t w)) as [S0 S1].
destruct (timing_range (clock_hour w)) as [T0 T1].
destruct (reputation_range t w) as [R0 R1].
destruct (reputation_range_unit _ R0 R1) as [U0 U1].
destruct (safety_range t) as [F0 F1].
unfold breakdown_total, breakdown_of. cbn [content_quality social_signals
  timing user_reputation safety_score].
apply scaled_sum_nn_exp; try now apply unit_nn_exp.
apply nn_exp_weaken with (E := (-55)%Z); [lia | ].
exact (nn_exp_range 0.2 _ 7205759403792794 (-55) eq_refl F0 F1).
Qed.

(** A text of thirty characters with no question mark, no hashtag and no
    keyword of the three tables scores low on quality and on engagement. *)
Lemma plain_short_text_scores_low (t : string) (w : World) :
len t = 30%Z -> count_char "?" t = 0%Z -> count_tagged "#" t = 0%Z ->
keyword_free t = true ->
(calculate_content_quality (features_of t w) <? 0.6) = true
/\ (calculate_engagement_potential (features_of t w) <? 0.5) = true.
Proof.
intros Hlen Hq Hh Hfree.
destruct (keyword_free_scores t Hfree) as (Htr & Hem & Hct).
unfold calculate_content_quality, calculate_engagement_potential.
cbn [features_of text length question_mark_count exclamation_count
     hashtag_count mention_count has_url].
rewrite Htr, Hem, Hct, Hlen, Hq, Hh.
destruct ((1 <=? count_char "!" t)%Z && (count_char "!" t <=? 2)%Z);
  destruct (count_char "!" t >? 3)%Z;
  destruct ((1 <=? count_tagged "@" t)%Z && (count_tagged "@" t <=? 2)%Z);
  destruct (count_tagged "@" t >? 3)%Z;
  destruct (search_url t); split; reflexivity.
Qed.

(** Every run returns: the final [int(...)] never raises. *)
Lemma run_total (t : string) (w : World) :
exists v : Z,
  calculate_virality_score t w = (Ok (analysis_of t w v), after_draw w)
  /\ floor_of (breakdown_total (breakdown_of t w) * 100) v
  /\ (0 <= v < 2 ^ 17)%Z.
Proof.
pose proof (total_nn_exp t w) as Hn.
destruct (nn_exp_int (-36) _ Hn ltac:(lia)) as (v & Hv & Hr).
exists v. rewrite run_enhanced, Hv. repeat split; try apply Hr.
now apply (nn_exp_floor (-36)); [ | lia | ].
Qed.

End EnhancedFacts.

(** ** The suggestion generator *)

Module SuggestionFacts.

Import PyFloat Enhanced Run.
Local Open Scope Z_scope.

Lemma generate_suggestions_shape (b : Breakdown) (f : TweetFeatures) :
exists (pre : list Suggestion),
  (List.length pre <= 3)%nat
  /\ forallb (fun s => negb (is_hashtag_advice s)) pre = true
  /\ generate_suggestions b f =
     (pre ++ (if hashtag_count f =? 0 then [add_hashtags]
              else if hashtag_count f >? 3 then [reduce_hashtags]
              else []))%list.
Proof.
unfold generate_suggestions.
set (g1 := if (content_quality b <? 0.6)%float then _ else _).
set (g2 := if (social_signals b <? 0.5)%float then _ else _).
set (g3 := if (timing b <? 0.7)%float then _ else _).
exists g3. repeat split.
- subst g1 g2 g3.
  destruct (content_quality b <? 0.6)%float;
    [destruct (length f <? 100) | ];
    (destruct (social_signals b <? 0.5)%float;
     [destruct (question_mark_count f =? 0) | ]);
    destruct (timing b <? 0.7)%float; simpl; lia.
- subst g1 g2 g3.
  destruct (content_quality b <? 0.6)%float;
    [destruct (length f <? 100) | ];
    (destruct (social_signals b <? 0.5)%float;
     [destruct (question_mark_count f =? 0) | ]);
    destruct (timing b <? 0.7)%float; reflexivity.
- destruct (hashtag_count f =? 0); [reflexivity | ].
  destruct (hashtag_count f >? 3); [reflexivity | ].
  now rewrite app_nil_r.
Qed.

Lemma not_in_pre (pre : list Suggestion) (s : Suggestion) :
forallb (fun s => negb (is_hashtag_advice s)) pre = true ->
is_hashtag_advice s = true -> ~ In s pre.
Proof.
intros Hall Hs Hin. rewrite forallb_forall in Hall.
specialize (Hall s Hin). now rewrite Hs in Hall.
Qed.

End SuggestionFacts.

(** ** The service, step by step *)

Module ServiceFacts.

Import PyFloat PyStr PyVal Env Run Bounds Service ServiceRun.
Import FloatFacts ClampFacts.
Local Open Scope string_scope.
Local Open Scope float_scope.

Lemma bind_ok {A B} (m : M A) (k : A -> M B) (w w' : World) (a : A) :
m w = (Ok a, w') -> bind m k w = k a w'.
Proof. unfold bind. now intros ->. Qed.

Lemma try_ok {A} (body : M A) (h : exn -> M A) (w w' : World) (a : A) :
body w = (Ok a, w') -> try_except body h w = (Ok a, w').
Proof. unfold try_except. now intros ->. Qed.

Lemma chain_le_le_int (lo n hi : Z) :
chain_le_le lo (PInt n) hi = Ok ((lo <=? n)%Z && (n <=? hi)%Z).
Proof. unfold chain_le_le. simpl. now destruct (lo <=? n)%Z. Qed.

Lemma chain_lt_le_int (lo n hi : Z) :
chain_lt_le lo (PInt n) hi = Ok ((lo <? n)%Z && (n <=? hi)%Z).
Proof. unfold chain_lt_le. simpl. now destruct (lo <? n)%Z. Qed.

(** On extracted features no comparison of the light ranker raises. *)
Lemma light_ranker_typed (s : string) md (w0 w : World) :
exists x : float,
  light_ranker_body (features_of s md w0) w = (Ok (py_max 0 (py_min 1 x)), w).
Proof.
unfold light_ranker_body, features_of.
cbn [length hashtag_count mention_count question_mark_count
     exclamation_count has_url has_media is_retweet].
rewrite !chain_le_le_int, chain_lt_le_int.
eexists. reflexivity.
Qed.

Lemma engagement_typed (s : string) md (w0 w : World) :
exists x : float,
  engagement_body (features_of s md w0) w = (Ok (py_max 0 (py_min 1 x)), w).
Proof.
unfold engagement_body, features_of.
cbn [length question_mark_count text].
rewrite !chain_le_le_int.
eexists. reflexivity.
Qed.

Lemma toxicity_typed (s : string) (w : World) :
toxicity_body (PStr s) w = (Ok (toxicity_of s), w).
Proof. reflexivity. Qed.

Lemma count_matching_bounds (words : list string) (hay : string) :
(0 <= count_matching words hay <= Z.of_nat (List.length words))%Z.
Proof.
unfold count_matching.
assert (G : forall n : Z,
  (n <= fold_left (fun n word => if contains word hay then n + 1 else n)
          words n <= n + Z.of_nat (List.length words))%Z).
{ induction words as [ | word r IH]; intros n; cbn [fold_left List.length].
  - lia.
  - destruct (contains word hay).
    + specialize (IH (n + 1)%Z). lia.
    + specialize (IH n). lia. }
specialize (G 0%Z). lia.
Qed.

Lemma count_matching_filter (words : list string) (hay : string) :
count_matching words hay
= Z.of_nat (List.length (filter (fun word => contains word hay) words)).
Proof.
unfold count_matching.
assert (G : forall n : Z,
  fold_left (fun n word => if contains word hay then (n + 1)%Z else n) words n
  = (n + Z.of_nat
           (List.length (filter (fun word => contains word hay) words)))%Z).
{ induction words as [ | word r IH]; intros n; cbn [fold_left filter].
  - cbn [List.length]. lia.
  - destruct (contains word hay); rewrite IH; cbn [List.length]; lia. }
now rewrite G.
Qed.

(** Two words of the service's list in the text: toxicity [0.4]. *)
Lemma service_two_toxic_words (s : string) (w : World) :
List.length (matching toxic_words s) = 2%nat ->
calculate_toxicity_score (mkSelf true) (PStr s) w = (Ok 0.4, w)
/\ (1 - 0.4 = 0.6)%float.
Proof.
intros H. split; [ | reflexivity].
unfold calculate_toxicity_score. cbn [is_initialized negb]. apply try_ok.
rewrite toxicity_typed. unfold toxicity_of, matching in *.
now rewrite count_matching_filter, H.
Qed.

Lemma service_toxicity_range (s : string) :
fle 0 (toxicity_of s) /\ fle (toxicity_of s) 1
/\ fle 0 ((1 - toxicity_of s) * 0.2) /\ fle ((1 - toxicity_of s) * 0.2) 1.
Proof.
unfold toxicity_of.
pose proof (count_matching_bounds toxic_words (lower s)) as H.
set (c := count_matching toxic_words (lower s)) in *.
change (Z.of_nat (List.length toxic_words)) with 14%Z in H.
assert (C : In c [0; 1; 2; 3; 4; 5; 6; 7; 8; 9; 10; 11; 12; 13; 14]%Z).
{ simpl. lia. }
clearbody c. simpl in C.
repeat (destruct C as [<- | C]; [now repeat split | ]). destruct C.
Qed.


Lemma service_timing_range (hour : Z) :
fle 0 (timing_of_hour hour) /\ fle (timing_of_hour hour) 1.
Proof.
unfold timing_of_hour.
destruct (existsb (Z.eqb hour) peak_hours); [now split | ].
destruct ((8 <=? hour)%Z && (hour <=? 22)%Z); now split.
Qed.

(** With the service initialised, a string is always scored: no calculator
    raises on extracted features and the final [int(...)] is defined. *)
Lemma service_run_total (s : string) md (w : World) :
exists a : AlgorithmScore,
  calculate_virality_score (mkSelf true) (PStr s) md w = (Ok a, w)
  /\ features a = features_of s md w
  /\ toxicity_score a = toxicity_of s
  /\ breakdown a =
     mkBreakdown (light_ranker_score a * 0.4) (engagement_score a * 0.3)
                 (timing_of_hour (clock_hour w)) 0.7
                 ((1 - toxicity_score a) * 0.2)
  /\ floor_of (breakdown_total (breakdown a) * 100) (virality_score a).
Proof.
destruct (light_ranker_typed s md w w) as [xl Hl].
destruct (engagement_typed s md w w) as [xe He].
set (l := py_max 0 (py_min 1 xl)) in *.
set (e := py_max 0 (py_min 1 xe)) in *.
set (b := mkBreakdown (l * 0.4) (e * 0.3) (timing_of_hour (clock_hour w)) 0.7
                      ((1 - toxicity_of s) * 0.2)).
assert (Hn : nn_exp (-36) (breakdown_total b * 100)).
{ destruct (py_clamp_range 0 1 xl eq_refl eq_refl eq_refl) as [L0 L1].
  destruct (py_clamp_range 0 1 xe eq_refl eq_refl eq_refl) as [E0 E1].
  destruct (service_timing_range (clock_hour w)) as [T0 T1].
  destruct (service_toxicity_range s) as (_ & _ & F0 & F1).
  unfold breakdown_total, b.
  cbn [content_quality social_signals timing user_reputation safety_score].
  apply scaled_sum_nn_exp; try now apply unit_nn_exp.
  - apply nn_exp_mul with (E1 := (-52)%Z) (E2 := (-54)%Z); try lia.
    + now apply unit_nn_exp.
    + unfold nn_exp.
      change (Prim2SF 0.4) with (S754_finite false 7205759403792794 (-54)).
      cbv beta iota. lia.
  - apply nn_exp_mul with (E1 := (-52)%Z) (E2 := (-54)%Z); try lia.
    + now apply unit_nn_exp.
    + unfold nn_exp.
      change (Prim2SF 0.3) with (S754_finite false 5404319552844595 (-54)).
      cbv beta iota. lia. }
destruct (nn_exp_int (-36) _ Hn ltac:(lia)) as (v & Hv & _).
exists (mkScore l None (toxicity_of s) e v (features_of s md w) b).
split; [ | repeat split; now apply (nn_exp_floor (-36)); [ | lia | ]].
unfold calculate_virality_score. cbn [is_initialized negb]. apply try_ok.
rewrite (bind_ok _ _ w w (features_of s md w)) by reflexivity.
rewrite (bind_ok _ _ w w l)
  by (unfold calculate_light_ranker_score; cbn [is_initialized negb];
      apply try_ok; exact Hl).
rewrite (bind_ok _ _ w w (toxicity_of s)) by reflexivity.
rewrite (bind_ok _ _ w w e)
  by (unfold calculate_engagement_score; cbn [is_initialized negb];
      apply try_ok; exact He).
rewrite (bind_ok _ _ w w (timing_of_hour (clock_hour w))) by reflexivity.
fold b. unfold bind, lift. now rewrite Hv.
Qed.

End ServiceFacts.

(** * The claims *)

Import PyFloat PyStr Env Enhanced Run Bounds.
Import Reach FloatFacts ClampFacts ReachFacts EnhancedFacts SuggestionFacts.
Open Scope string_scope.

(** C9.  For every breakdown and every feature record the suggestion
    generator returns at most four suggestions, one per rule group at most;
    the add-hashtags suggestion is emitted exactly when [hashtag_count = 0],
    the reduce-hashtags suggestion exactly when [hashtag_count > 3], neither
    when [hashtag_count] is in [[1, 3]], and never both. *)
Theorem suggestions_at_most_four_and_hashtag_rule
  (b : Breakdown) (f : TweetFeatures) :
(List.length (generate_suggestions b f) <= 4)%nat
/\ (In add_hashtags (generate_suggestions b f) <-> hashtag_count f = 0%Z)
/\ (In reduce_hashtags (generate_suggestions b f) <-> (hashtag_count f > 3)%Z)
/\ ((1 <= hashtag_count f <= 3)%Z ->
    ~ In add_hashtags (generate_suggestions b f)
    /\ ~ In reduce_hashtags (generate_suggestions b f))
/\ ~ (In add_hashtags (generate_suggestions b f)
      /\ In reduce_hashtags (generate_suggestions b f)).
Proof.
destruct (generate_suggestions_shape b f) as (pre & Hlen & Hpre & ->).
pose proof (not_in_pre pre add_hashtags Hpre eq_refl) as Na.
pose proof (not_in_pre pre reduce_hashtags Hpre eq_refl) as Nr.
set (tail := if (hashtag_count f =? 0)%Z then [add_hashtags]
             else if (hashtag_count f >? 3)%Z then [reduce_hashtags]
             else []).
assert (Hadd : In add_hashtags (pre ++ tail) <-> hashtag_count f = 0%Z).
{ rewrite in_app_iff. subst tail.
  destruct (Z.eqb_spec (hashtag_count f) 0) as [E0 | E0];
    [cbn [In]; tauto | ].
  destruct (hashtag_count f >? 3)%Z; cbn [In];
    (split; [intros [H | H]; [tauto | ] | tauto]).
  - destruct H as [H | []]. discriminate H.
  - destruct H. }
assert (Hred : In reduce_hashtags (pre ++ tail) <-> (hashtag_count f > 3)%Z).
{ rewrite in_app_iff. subst tail.
  destruct (Z.eqb_spec (hashtag_count f) 0) as [E0 | E0].
  - cbn [In]. split; [intros [H | [H | []]]; [tauto | discriminate H] | lia].
  - destruct (Z.gtb_spec (hashtag_count f) 3) as [E3 | E3]; cbn [In].
    + split; [lia | now right; left].
    + split; [tauto | lia]. }
assert (Hlen' : (List.length tail <= 1)%nat).
{ subst tail. destruct (hashtag_count f =? 0)%Z; [simpl; lia | ].
  destruct (hashtag_count f >? 3)%Z; simpl; lia. }
rewrite length_app. repeat split; try tauto; try lia.
- rewrite Hadd. lia.
- rewrite Hred. lia.
- rewrite Hadd, Hred. lia.
Qed.

(** C10.  For every text the toxicity score of the enhanced scorer is at most
    [1.0]: its list has five words, each counted once for [0.2].  So the
    [max(0.0, ...)] guard never changes the value, and the safety score is
    exactly [1.0 - toxicity_score], in every run. *)
Theorem enhanced_toxicity_at_most_one (t : string) (w : World) :
List.length toxic_words = 5%nat
/\ fle (toxicity_of t) 1
/\ py_max 0 (1 - toxicity_of t) = (1 - toxicity_of t)%float
/\ exists (a : Analysis) (w' : World),
     calculate_virality_score t w = (Ok a, w')
     /\ toxicity_score (score a) = toxicity_of t
     /\ safety_score (breakdown (score a))
        = ((1 - toxicity_score (score a)) * 0.2)%float.
Proof.
split; [reflexivity | ].
assert (H : fle (toxicity_of t) 1
            /\ py_max 0 (1 - toxicity_of t) = (1 - toxicity_of t)%float).
{ pose proof (toxicity_cases t) as H. simpl in H.
  repeat (destruct H as [<- | H]; [now split | ]). destruct H. }
destruct H as [H1 H2]. repeat split; try assumption.
destruct (run_total t w) as (v & Hrun & _).
exists (analysis_of t w v), (after_draw w). split; [exact Hrun | ].
split; [reflexivity | ].
cbn [analysis_of score breakdown breakdown_of safety_score toxicity_score].
unfold safety_of. now rewrite H2.
Qed.

(** C2.  For every input text every value of the breakdown lies in
    [[0, 1]]: [content_quality] and [social_signals] are clamped to
    [[0, 1]], [timing] is one of the six step values, [user_reputation] is
    clamped to [[0.3, 0.9]], and [safety_score], already scaled by [0.2],
    lies in [[0, 0.2]]. *)
Theorem breakdown_values_in_range (t : string) (w : World) :
exists (a : Analysis) (w' : World),
  calculate_virality_score t w = (Ok a, w')
  /\ let b := breakdown (score a) in
     (fle 0 (content_quality b) /\ fle (content_quality b) 1)
     /\ (fle 0 (social_signals b) /\ fle (social_signals b) 1)
     /\ (In (timing b) [0.9; 0.85; 0.8; 0.75; 0.6; 0.3]%float
         /\ fle 0 (timing b) /\ fle (timing b) 1)
     /\ (fle 0.3 (user_reputation b) /\ fle (user_reputation b) 0.9
         /\ fle 0 (user_reputation b) /\ fle (user_reputation b) 1)
     /\ (fle 0 (safety_score b) /\ fle (safety_score b) 0.2
         /\ fle (safety_score b) 1).
Proof.
destruct (run_total t w) as (v & Hrun & _).
exists (analysis_of t w v), (after_draw w). split; [exact Hrun | ].
cbn [analysis_of score breakdown breakdown_of content_quality social_signals
     timing user_reputation safety_score].
split; [apply content_quality_range | ].
split; [apply engagement_range | ].
split; [split; [apply timing_cases | apply timing_range] | ].
destruct (reputation_range t w) as [R0 R1].
split; [repeat split; try assumption; now apply reputation_range_unit | ].
unfold safety_of. pose proof (toxicity_cases t) as H. simpl in H.
repeat (destruct H as [<- | H]; [now repeat split | ]). destruct H.
Qed.

(** C1.  For every input text the composite [virality_score] is the integer
    part of [100 * (content_quality + social_signals + timing +
    user_reputation + safety_score)], the sum and the product taken in
    binary64 as the source computes them: [int(...)] truncates, it does not
    round, and it always succeeds.  The same holds in the service.  No final
    clamp is applied: the breakdown with every value at its maximum scores
    [400], and a run with a draw in [[-0.1, 0.1]] reaches [399]. *)
Theorem virality_score_is_truncated_total :
(forall (t : string) (w : World),
   exists (a : Analysis) (w' : World),
     calculate_virality_score t w = (Ok a, w')
     /\ floor_of (breakdown_total (breakdown (score a)) * 100)
                 (virality_score (score a)))
/\ (forall (s : string) md (w : World),
      exists (a : Service.AlgorithmScore) (w' : World),
        Service.calculate_virality_score
          (Service.mkSelf true) (PyVal.PStr s) md w = (Ok a, w')
        /\ floor_of (Service.breakdown_total (Service.breakdown a) * 100)
                    (Service.virality_score a))
/\ int_of_float (breakdown_total (mkBreakdown 1 1 0.9 0.9 0.2) * 100)
   = Ok 400%Z
/\ exists (t : string) (w : World) (a : Analysis) (w' : World),
     calculate_virality_score t w = (Ok a, w')
     /\ fle (-0.1) (rng_out w (rng_pos w)) /\ fle (rng_out w (rng_pos w)) 0.1
     /\ content_quality (breakdown (score a)) = 1%float
     /\ social_signals (breakdown (score a)) = 1%float
     /\ timing (breakdown (score a)) = 0.9%float
     /\ safety_score (breakdown (score a)) = 0.2%float
     /\ virality_score (score a) = 399%Z
     /\ (100 < virality_score (score a))%Z.
Proof.
split; [ | split; [ | split]].
- intros t w. destruct (run_total t w) as (v & Hrun & Hfloor & _).
  exists (analysis_of t w v), (after_draw w). split; [exact Hrun | exact Hfloor].
- intros s md w.
  destruct (ServiceFacts.service_run_total s md w) as (a & Hrun & _ & _ & _ & Hf).
  exists a, w. split; [exact Hrun | exact Hf].
- reflexivity.
- exists adversarial_text, adversarial_world.
  eexists. eexists. split; [vm_compute; reflexivity | ].
  vm_compute. repeat split; discriminate.
Qed.

(** C4.  With the text, the clock reading (timestamp and hour) and the value
    drawn from the random generator held fixed, two runs of the pipeline give
    the same output: the same features, breakdown, [virality_score] and list
    of suggestions.  Nothing else of the world is read. *)
Theorem pipeline_deterministic (t : string) (w1 w2 : World) :
clock_ms w1 = clock_ms w2 ->
clock_hour w1 = clock_hour w2 ->
rng_out w1 (rng_pos w1) = rng_out w2 (rng_pos w2) ->
exists (a : Analysis) (w1' w2' : World),
  calculate_virality_score t w1 = (Ok a, w1')
  /\ calculate_virality_score t w2 = (Ok a, w2').
Proof.
intros Hms Hhour Hrng.
destruct (run_total t w1) as (v1 & Hrun1 & _).
exists (analysis_of t w1 v1), (after_draw w1), (after_draw w2).
split; [exact Hrun1 | ].
assert (Hf : features_of t w2 = features_of t w1)
  by (unfold features_of; now rewrite Hms).
assert (Hb : breakdown_of t w2 = breakdown_of t w1)
  by (unfold breakdown_of, reputation_of; now rewrite Hf, Hhour, Hrng).
rewrite run_enhanced in Hrun1 |- *. rewrite Hb.
destruct (int_of_float (breakdown_total (breakdown_of t w1) * 100))
  as [v | e]; [ | discriminate Hrun1].
injection Hrun1 as ->. unfold analysis_of. now rewrite Hb, Hf.
Qed.

Lemma pipeline_deterministic_witness :
exists (a : Analysis) (w1' w2' : World),
  calculate_virality_score "hello world"
    (mkWorld 1700000000000 14 (fun _ => 0.05%float) 0 []) = (Ok a, w1')
  /\ calculate_virality_score "hello world"
       (mkWorld 1700000000000 14
                (fun n => if Nat.eqb n 7 then 0.05%float else (-0.1)%float)
                7 [("earlier line"%string, TypeError)]) = (Ok a, w2').
Proof.
apply (pipeline_deterministic "hello world"
         (mkWorld 1700000000000 14 (fun _ => 0.05%float) 0 [])
         (mkWorld 1700000000000 14
                  (fun n => if Nat.eqb n 7 then 0.05%float else (-0.1)%float)
                  7 [("earlier line"%string, TypeError)]));
  reflexivity.
Defined.

(** C6.  For every text in which exactly two words of the toxic-word list
    occur (in the lowered text, as the code looks them up), the toxicity
    score is [0.4], two matches times [0.2], and the safety score is [0.6];
    the breakdown holds it scaled by [0.2].  ([service_two_toxic_words] is
    the same for the service's list.) *)
Theorem two_toxic_words_score (t : string) (w : World) :
List.length (matching toxic_words t) = 2%nat ->
toxicity_of t = 0.4%float
/\ safety_of t = 0.6%float
/\ exists (a : Analysis) (w' : World),
     calculate_virality_score t w = (Ok a, w')
     /\ toxicity_score (score a) = 0.4%float
     /\ safety_score (breakdown (score a)) = (0.6 * 0.2)%float.
Proof.
intros H.
assert (Ht : toxicity_of t = 0.4%float).
{ revert H. unfold matching, toxicity_of, toxic_words.
  cbn [filter fold_left].
  case_contains; cbn [List.length]; intros H; try discriminate H;
    reflexivity. }
assert (Hs : safety_of t = 0.6%float)
  by (unfold safety_of; now rewrite Ht).
repeat split; try assumption.
destruct (run_total t w) as (v & Hrun & _).
exists (analysis_of t w v), (after_draw w). split; [exact Hrun | ].
cbn [analysis_of score breakdown breakdown_of safety_score toxicity_score].
now rewrite Ht, Hs.
Qed.

Lemma two_toxic_words_score_witness :
toxicity_of "I hate this stupid bug" = 0.4%float
/\ safety_of "I hate this stupid bug" = 0.6%float
/\ exists (a : Analysis) (w' : World),
     calculate_virality_score "I hate this stupid bug" adversarial_world
     = (Ok a, w')
     /\ toxicity_score (score a) = 0.4%float
     /\ safety_score (breakdown (score a)) = (0.6 * 0.2)%float.
Proof.
apply (two_toxic_words_score "I hate this stupid bug" adversarial_world).
reflexivity.
Defined.

(** C7, as the code has it.  On the empty string feature extraction gives
    zero for the four counts and for the length and [false] for the four
    flags, and the pipeline completes without error.  The content quality is
    the binary64 difference [0.3 - 0.1], the base minus the short-length
    penalty: that is [0.19999999999999998], the float just below [0.2]. *)
Theorem empty_text_features_and_quality (w : World) :
exists (a : Analysis) (w' : World),
  calculate_virality_score "" w = (Ok a, w')
  /\ let f := features (score a) in
     hashtag_count f = 0%Z /\ mention_count f = 0%Z
     /\ question_mark_count f = 0%Z /\ exclamation_count f = 0%Z
     /\ has_url f = false /\ has_media f = false
     /\ is_retweet f = false /\ is_reply f = false
     /\ length f = 0%Z
     /\ calculate_content_quality f = (0.3 - 0.1)%float
     /\ content_quality (breakdown (score a)) = (0.3 - 0.1)%float
     /\ (0.3 - 0.1 <? 0.2)%float = true
     /\ next_up (0.3 - 0.1) = 0.2%float.
Proof.
destruct (run_total "" w) as (v & Hrun & _).
exists (analysis_of "" w v), (after_draw w). split; [exact Hrun | ].
cbn [analysis_of score features breakdown breakdown_of content_quality].
repeat split.
Qed.

(** C7 as stated fails: the content quality of the empty string is not the
    float [0.2]. *)
Lemma empty_text_quality_is_not_0_2 :
exists (a : Analysis) (w' : World),
  calculate_virality_score "" offpeak_world = (Ok a, w')
  /\ calculate_content_quality (features (score a)) <> 0.2%float
  /\ content_quality (breakdown (score a)) <> 0.2%float.
Proof.
eexists. eexists. split; [vm_compute; reflexivity | ].
split; vm_compute; discriminate.
Qed.

(** C5, as the code has it.  For every text of length 30 with no question
    mark and no hashtag, whose content quality is below [0.6] and whose
    engagement potential is below [0.5], scored at an hour whose timing score
    is below [0.7], the generator emits exactly four suggestions, in this
    order: expand the content (high, 20), add a question (high, 25), post at
    a peak hour (medium, 10), add hashtags (medium, 12). *)
Theorem short_text_suggestions (t : string) (w : World) :
len t = 30%Z ->
count_char "?" t = 0%Z ->
count_tagged "#" t = 0%Z ->
(timing_of_hour (clock_hour w) <? 0.7)%float = true ->
(calculate_content_quality (features_of t w) <? 0.6)%float = true ->
(calculate_engagement_potential (features_of t w) <? 0.5)%float = true ->
exists (a : Analysis) (w' : World),
  calculate_virality_score t w = (Ok a, w')
  /\ suggestions a = [expand_content; add_question; peak_hours; add_hashtags]
  /\ (priority expand_content = "high"
      /\ expected_improvement expand_content = 20%Z)
  /\ (priority add_question = "high"
      /\ expected_improvement add_question = 25%Z)
  /\ (priority add_hashtags = "medium"
      /\ expected_improvement add_hashtags = 12%Z).
Proof.
intros Hlen Hq Hh Ht Hc Hs.
destruct (run_total t w) as (v & Hrun & _).
exists (analysis_of t w v), (after_draw w). split; [exact Hrun | ].
split; [ | now repeat split].
cbn [analysis_of suggestions]. unfold generate_suggestions.
cbn [breakdown_of content_quality social_signals timing].
rewrite Hc, Hs, Ht.
cbn [features_of length question_mark_count hashtag_count].
now rewrite Hlen, Hq, Hh.
Qed.

Lemma short_text_suggestions_witness :
exists (a : Analysis) (w' : World),
  calculate_virality_score "no keywords in this short text" offpeak_world
  = (Ok a, w')
  /\ suggestions a = [expand_content; add_question; peak_hours; add_hashtags]
  /\ (priority expand_content = "high"
      /\ expected_improvement expand_content = 20%Z)
  /\ (priority add_question = "high"
      /\ expected_improvement add_question = 25%Z)
  /\ (priority add_hashtags = "medium"
      /\ expected_improvement add_hashtags = 12%Z).
Proof.
apply (short_text_suggestions "no keywords in this short text" offpeak_world);
  reflexivity.
Defined.

(** C5 as stated fails: a text of length 30 with no question mark and no
    hashtag, scored off-peak, whose keywords lift the content quality to
    [0.68] and the engagement potential to [0.55], gets two suggestions only,
    neither of them to expand the content or to add a question. *)
Lemma keyword_text_gets_two_suggestions :
exists (a : Analysis) (w' : World),
  calculate_virality_score keyword_text offpeak_world = (Ok a, w')
  /\ len keyword_text = 30%Z
  /\ count_char "?" keyword_text = 0%Z
  /\ count_tagged "#" keyword_text = 0%Z
  /\ (timing (breakdown (score a)) <? 0.7)%float = true
  /\ suggestions a = [peak_hours; add_hashtags]
  /\ ~ In expand_content (suggestions a)
  /\ ~ In add_question (suggestions a).
Proof.
eexists. eexists. split; [vm_compute; reflexivity | ].
cbn [suggestions score breakdown timing].
repeat split; try reflexivity;
  intros [H | [H | []]]; discriminate H.
Qed.

(** C8, as the code has it.  With the service initialised, an exception
    raised in the body of a sub-score calculator is caught by that
    calculator, which prints a line and returns its default: [0.5] for the
    light ranker, [0.1] for toxicity, [0.3] for engagement; a body that
    returns is passed through.  Such exceptions do occur (a field or a text
    that is [None]), and a request on a string is never aborted.  The guard
    that precedes each [try] is not covered: it raises when the service is
    not initialised. *)
Theorem calculators_contain_body_errors
  (f : Service.TweetFeatures) (t : PyVal.pyval) (w : World) :
match Service.light_ranker_body f w with
| (Ok v, w') =>
    Service.calculate_light_ranker_score (Service.mkSelf true) f w = (Ok v, w')
| (Raise e, w') =>
    Service.calculate_light_ranker_score (Service.mkSelf true) f w
    = (Ok 0.5%float,
       ServiceRun.printed w' "Error calculating light ranker score" e)
end
/\ match Service.toxicity_body t w with
   | (Ok v, w') =>
       Service.calculate_toxicity_score (Service.mkSelf true) t w = (Ok v, w')
   | (Raise e, w') =>
       Service.calculate_toxicity_score (Service.mkSelf true) t w
       = (Ok 0.1%float,
          ServiceRun.printed w' "Error calculating toxicity score" e)
   end
/\ match Service.engagement_body f w with
   | (Ok v, w') =>
       Service.calculate_engagement_score (Service.mkSelf true) f w
       = (Ok v, w')
   | (Raise e, w') =>
       Service.calculate_engagement_score (Service.mkSelf true) f w
       = (Ok 0.3%float,
          ServiceRun.printed w' "Error calculating engagement score" e)
   end
/\ (Service.light_ranker_body ServiceRun.blank_features w = (Raise TypeError, w)
    /\ Service.toxicity_body PyVal.PNone w = (Raise AttributeError, w)
    /\ Service.engagement_body ServiceRun.blank_features w
       = (Raise TypeError, w))
/\ forall (s : string) md,
     exists a : Service.AlgorithmScore,
       Service.calculate_virality_score
         (Service.mkSelf true) (PyVal.PStr s) md w = (Ok a, w).
Proof.
repeat split.
- unfold Service.calculate_light_ranker_score, try_except.
  cbn [Service.is_initialized negb].
  now destruct (Service.light_ranker_body f w) as [[v | e] w'].
- unfold Service.calculate_toxicity_score, try_except.
  cbn [Service.is_initialized negb].
  now destruct (Service.toxicity_body t w) as [[v | e] w'].
- unfold Service.calculate_engagement_score, try_except.
  cbn [Service.is_initialized negb].
  now destruct (Service.engagement_body f w) as [[v | e] w'].
- intros s md.
  destruct (ServiceFacts.service_run_total s md w) as (a & Hrun & _).
  now exists a.
Qed.

(** C8 as stated fails: when the service is not initialised, the exception
    each calculator raises before its [try] is not caught and no default is
    returned. *)
Lemma uninitialized_calculators_raise :
Service.calculate_light_ranker_score
  (Service.mkSelf false) (ServiceRun.features_of "hello" None offpeak_world)
  offpeak_world
= (Raise Service.not_initialized, offpeak_world)
/\ Service.calculate_toxicity_score
     (Service.mkSelf false) (PyVal.PStr "hello") offpeak_world
   = (Raise Service.not_initialized, offpeak_world)
/\ Service.calculate_engagement_score
     (Service.mkSelf false) (ServiceRun.features_of "hello" None offpeak_world)
     offpeak_world
   = (Raise Service.not_initialized, offpeak_world)
/\ Service.calculate_light_ranker_score
     (Service.mkSelf false) (ServiceRun.features_of "hello" None offpeak_world)
     offpeak_world
   <> (Ok 0.5%float, offpeak_world).
Proof. repeat split. discriminate. Qed.

(** C3.  For every feature record the content quality is what the
    specification describes: start at [0.3]; add [0.3] if the length is in
    [[100, 200]], else [0.2] if it is in [[50, 280]], else subtract [0.1] if
    it is below [50]; add [trending_score * 0.2], [emotional_score * 0.15]
    and [cta_score * 0.1]; add [0.1] if there is a question mark; add [0.05]
    if there are one or two exclamation marks, subtract [0.05] if there are
    more than three; clamp the total to [[0, 1]]. *)
Theorem content_quality_meets_spec (f : TweetFeatures) :
calculate_content_quality f = content_quality_spec f.
Proof.
rewrite content_quality_total, clamp_agrees_on_totals.
unfold content_quality_spec, quality_total_of, quality_total, in_interval.
rewrite !Z.gtb_ltb. reflexivity.
Qed.

(** * Further properties *)

(** ** The extractor *)

Module StringFacts.

Import PyFloat PyStr Env Enhanced Run Shape.
Local Open Scope string_scope.
Local Open Scope Z_scope.



Lemma lower_length (s : string) : len (lower s) = len s.
Proof.
unfold len. f_equal.
induction s as [ | c r IH]; [reflexivity | ]. cbn [lower String.length].
now rewrite IH.
Qed.

(** A word character is none of the four characters the extractor counts. *)
Lemma word_is_no_mark (c : ascii) :
is_word c = true ->
Ascii.eqb c "#" = false /\ Ascii.eqb c "@" = false
/\ Ascii.eqb c "?" = false /\ Ascii.eqb c "!" = false.
Proof.
intros H. repeat split.
all: match goal with
     | |- Ascii.eqb ?x ?d = false =>
         destruct (Ascii.eqb_spec x d) as [-> | ]; [discriminate H | reflexivity]
     end.
Qed.


Lemma one_mark_at_most (c : ascii) :
ind (Ascii.eqb c "#") + ind (Ascii.eqb c "@") + ind (Ascii.eqb c "?")
+ ind (Ascii.eqb c "!") <= 1.
Proof.
destruct c as [[ | ] [ | ] [ | ] [ | ] [ | ] [ | ] [ | ] [ | ]];
  vm_compute; discriminate.
Qed.

Lemma marks_bound (s : string) :
marks s <= len s
/\ (match s with
    | String c _ => is_word c = true -> marks s <= len s - 1
    | EmptyString => True
    end).
Proof.
unfold marks, len.
induction s as [ | c r [IH1 IH2]]; [split; [reflexivity | exact I] | ].
cbn [count_tagged count_char String.length]. rewrite Nat2Z.inj_succ.
pose proof (one_mark_at_most c) as Hc. unfold ind in Hc.
split.
- destruct r as [ | b r'].
  + cbn [count_tagged count_char String.length] in *.
    rewrite !andb_false_r.
    destruct (Ascii.eqb c "?"), (Ascii.eqb c "!"),
      (Ascii.eqb c "#"), (Ascii.eqb c "@"); lia.
  + destruct (is_word b) eqn:Wb.
    * specialize (IH2 eq_refl).
      destruct (Ascii.eqb c "?"), (Ascii.eqb c "!"),
        (Ascii.eqb c "#"), (Ascii.eqb c "@"); cbn [andb]; lia.
    * rewrite !andb_false_r.
      destruct (Ascii.eqb c "?"), (Ascii.eqb c "!"),
        (Ascii.eqb c "#"), (Ascii.eqb c "@"); lia.
- intros Wc. destruct (word_is_no_mark c Wc) as (E1 & E2 & E3 & E4).
  rewrite E1, E2, E3, E4. cbn [andb]. lia.
Qed.

Lemma count_tagged_nonneg (c : ascii) (s : string) : 0 <= count_tagged c s.
Proof.
induction s as [ | a r IH]; cbn [count_tagged]; [lia | ].
destruct (Ascii.eqb a c && _); lia.
Qed.

Lemma count_char_nonneg (c : ascii) (s : string) : 0 <= count_char c s.
Proof.
induction s as [ | a r IH]; cbn [count_char]; [lia | ].
destruct (Ascii.eqb a c); lia.
Qed.

Lemma prefix_length (p s : string) :
String.prefix p s = true -> (len p <= len s)%Z.
Proof.
unfold len. revert s.
induction p as [ | a p IH]; intros s H; cbn [String.length]; [lia | ].
destruct s as [ | b s]; [discriminate H | ]. cbn [String.prefix] in H.
destruct (ascii_dec a b); [ | discriminate H].
specialize (IH s H). cbn [String.length]. lia.
Qed.

Lemma contains_length (needle hay : string) :
contains needle hay = true -> (len needle <= len hay)%Z.
Proof.
induction hay as [ | c r IH]; cbn [contains]; intros H.
- rewrite orb_false_r in H. now apply prefix_length.
- apply orb_true_iff in H as [H | H]; [now apply prefix_length | ].
  specialize (IH H). unfold len in *. cbn [String.length]. lia.
Qed.

Lemma then_nonspace_length (p s : string) :
then_nonspace p s = true -> (len p + 1 <= len s)%Z.
Proof.
unfold len. revert s.
induction p as [ | a p IH]; intros [ | b s] H; try discriminate H;
  cbn [String.length].
- lia.
- cbn [then_nonspace] in H. apply andb_true_iff in H as [_ H].
  specialize (IH s H). lia.
Qed.

Lemma search_url_length (s : string) :
search_url s = true -> (8 <= len s)%Z.
Proof.
induction s as [ | c r IH]; cbn [search_url]; intros H.
- discriminate H.
- apply orb_true_iff in H as [H | H].
  + apply orb_true_iff in H as [H | H];
      apply then_nonspace_length in H; unfold len in *;
      cbn [String.length] in *; lia.
  + specialize (IH H). unfold len in *. cbn [String.length]. lia.
Qed.

End StringFacts.

(** ** The keyword loops, flag by flag *)

Module FlagFacts.

Import PyFloat PyStr Enhanced Reach Flags.
Local Open Scope float_scope.

Lemma all_flags_complete (l : list bool) : In l (all_flags (List.length l)).
Proof.
induction l as [ | b r IH]; [now left | ].
cbn [List.length all_flags]. apply in_or_app.
destruct b; [left | right]; now apply in_map.
Qed.

Lemma flags_of_length (test : string -> bool) (table : list (string * float)) :
List.length (flags_of test table) = List.length table.
Proof. apply length_map. Qed.

Lemma scan_as_flags (step : float -> float -> float) (test : string -> bool)
  (table : list (string * float)) :
forall acc : float,
  scan step test table acc
  = scan_flags step (flags_of test table) table acc.
Proof.
induction table as [ | item r IH]; intros acc; [reflexivity | ].
cbn [scan fold_left flags_of map scan_flags]. apply IH.
Qed.

Lemma in_combine_flags (test : string -> bool) (table : list (string * float))
  (item : string * float) :
In item table ->
In (test (fst item), item) (combine (flags_of test table) table).
Proof.
induction table as [ | it r IH]; [easy | ].
intros [-> | H]; [now left | right; now apply IH].
Qed.

Lemma combine_flags_in (test : string -> bool) (table : list (string * float))
  (b : bool) (item : string * float) :
In (b, item) (combine (flags_of test table) table) ->
b = test (fst item) /\ In item table.
Proof.
induction table as [ | it r IH]; [easy | ].
cbn [flags_of map combine In]. intros [H | H].
- injection H as <- <-. split; [reflexivity | now left].
- destruct (IH H) as [H1 H2]. split; [exact H1 | now right].
Qed.

Lemma existsb_flags (test : string -> bool) (table : list (string * float)) :
existsb (fun b => b) (flags_of test table) = false ->
forall item, In item table -> test (fst item) = false.
Proof.
induction table as [ | it r IH]; [easy | ].
cbn [flags_of map existsb]. intros H item [<- | Hin].
- now apply orb_false_iff in H.
- apply IH; [ | exact Hin]. now apply orb_false_iff in H.
Qed.

(** A check that holds of every flag list holds of the text's. *)
Lemma flags_checked (P : list bool -> bool) (test : string -> bool)
  (table : list (string * float)) :
forallb P (all_flags (List.length table)) = true ->
P (flags_of test table) = true.
Proof.
intros H. rewrite forallb_forall in H. apply H.
rewrite <- (flags_of_length test table). apply all_flags_complete.
Qed.

Lemma capped_sum_checked (t : string) (table : list (string * float)) :
forallb (fun fl => is_capped_sum fl table
                     (py_min (scan_flags add fl table 0) 1))
        (all_flags (List.length table)) = true ->
let r := py_min (sum_matching table (lower t)) 1 in
(forall (word : string) (s : float),
   In (word, s) table -> contains word (lower t) = true ->
   (s <=? r) = true)
/\ (r <=? 1) = true
/\ ((r = 0
     /\ forall (word : string) (s : float),
          In (word, s) table -> contains word (lower t) = false)
    \/ ((0 <? r) = true
        /\ exists (word : string) (s : float),
             In (word, s) table /\ contains word (lower t) = true)).
Proof.
intros H. set (test := fun word => contains word (lower t)).
change (sum_matching table (lower t)) with (scan add test table 0).
rewrite scan_as_flags.
apply (flags_checked _ test) in H.
set (r := py_min (scan_flags add (flags_of test table) table 0) 1) in *.
cbv zeta. unfold is_capped_sum in H.
apply andb_true_iff in H as [H H3]. apply andb_true_iff in H as [H1 H2].
rewrite forallb_forall in H1. repeat split.
- intros word s Hin Hc.
  specialize (H1 _ (in_combine_flags test _ _ Hin)). cbn [fst snd] in H1.
  unfold test in H1 at 1. now rewrite Hc in H1.
- exact H2.
- destruct (existsb (fun b => b) (flags_of test table)) eqn:E.
  + right. split; [exact H3 | ].
    apply existsb_exists in E as (b & Hb & ->).
    unfold flags_of in Hb. apply in_map_iff in Hb as ([word s] & Hw & Hin).
    now exists word, s.
  + left. apply Leibniz.eqb_spec in H3. split; [exact H3 | ].
    intros word s Hin. exact (existsb_flags test _ E _ Hin).
Qed.

Lemma engagement_total_clamped (f : TweetFeatures) :
calculate_engagement_potential f
= py_max 0 (py_min 1 (engagement_total_of f)).
Proof. reflexivity. Qed.

Lemma every_engagement_total_sound (P : float -> bool) :
every_engagement_total P = true ->
forall f : TweetFeatures, P (engagement_total_of f) = true.
Proof.
unfold every_engagement_total, engagement_total_of. intros H f.
pose proof (ReachFacts.emotional_in (text f)) as Hem.
pose proof (ReachFacts.cta_in (text f)) as Hct.
revert Hem Hct.
generalize (calculate_emotional_score (text f)) as em.
generalize (calculate_cta_score (text f)) as ct.
generalize (has_url f) as url.
generalize (mention_count f >? 3)%Z as m2.
generalize ((1 <=? mention_count f) && (mention_count f <=? 2))%Z as m1.
generalize (hashtag_count f >? 5)%Z as h2.
generalize ((1 <=? hashtag_count f) && (hashtag_count f <=? 3))%Z as h1.
generalize (question_mark_count f >? 0)%Z as q.
intros q h1 h2 m1 m2 url ct em Hem Hct.
apply (ReachFacts.forallb_at _ _ q) in H; [ | apply ReachFacts.in_bools].
apply (ReachFacts.forallb_at _ _ h1) in H; [ | apply ReachFacts.in_bools].
apply (ReachFacts.forallb_at _ _ h2) in H; [ | apply ReachFacts.in_bools].
apply (ReachFacts.forallb_at _ _ m1) in H; [ | apply ReachFacts.in_bools].
apply (ReachFacts.forallb_at _ _ m2) in H; [ | apply ReachFacts.in_bools].
apply (ReachFacts.forallb_at _ _ url) in H; [ | apply ReachFacts.in_bools].
apply (ReachFacts.forallb_at _ _ ct) in H; [ | exact Hct].
apply (ReachFacts.forallb_at _ _ em) in H; [ | exact Hem].
exact H.
Qed.

End FlagFacts.

(** ** The service on the values its sub-scores take *)

Module ServiceEnumFacts.

Import PyFloat PyStr PyVal Env Service ServiceRun ServiceAdvice Reach Flags.
Import ServiceEnum ReachFacts FlagFacts ServiceFacts.
Local Open Scope string_scope.
Local Open Scope float_scope.

Lemma light_body_explicit (s : string) md (w0 w : World) :
light_ranker_body (features_of s md w0) w = (Ok (light_of s), w).
Proof.
unfold light_ranker_body, features_of.
cbn [length hashtag_count mention_count question_mark_count
     exclamation_count has_url has_media is_retweet].
rewrite !chain_le_le_int, chain_lt_le_int. reflexivity.
Qed.

Lemma engagement_body_explicit (s : string) md (w0 w : World) :
engagement_body (features_of s md w0) w = (Ok (engagement_of s), w).
Proof.
unfold engagement_body, features_of.
cbn [length question_mark_count text].
rewrite !chain_le_le_int. reflexivity.
Qed.

Lemma in_upto (n : nat) (c : Z) :
(0 <= c <= Z.of_nat n)%Z -> In c (upto n).
Proof.
intros H. unfold upto. apply in_map_iff. exists (Z.to_nat c).
split; [lia | ]. apply in_seq. lia.
Qed.

Lemma light_in (s : string) : In (light_of s) light_values.
Proof.
unfold light_of.
change light_values with (dedup (map light_of_flags (all_flags 11))).
apply dedup_In, in_map.
match goal with |- In ?l _ => exact (all_flags_complete l) end.
Qed.

Lemma engagement_in (s : string) : In (engagement_of s) engagement_values.
Proof.
unfold engagement_of.
change engagement_values
  with (dedup (flat_map (fun c_q => flat_map (fun cta => flat_map (fun emo =>
           map (engagement_of_counts c_q cta emo) bools)
         (upto 5)) (upto 7)) bools)).
apply dedup_In.
apply in_flat_map. eexists. split; [apply in_bools | ].
apply in_flat_map. eexists. split.
{ apply (in_upto 7). apply (count_matching_bounds cta_words). }
apply in_flat_map. eexists. split.
{ apply (in_upto 5). apply (count_matching_bounds emotional_words). }
apply in_map, in_bools.
Qed.

Lemma toxicity_in (s : string) : In (toxicity_of s) toxicity_values.
Proof.
unfold toxicity_of.
change toxicity_values
  with (dedup (map (fun c => py_min (float_of_small c * 0.2) 1) (upto 14))).
apply dedup_In.
apply (in_map (fun c => py_min (float_of_small c * 0.2) 1)).
apply (in_upto 14). apply (count_matching_bounds toxic_words).
Qed.

Lemma service_timing_in (hour : Z) : In (timing_of_hour hour) timing_values.
Proof.
unfold timing_of_hour, timing_values.
destruct (existsb (Z.eqb hour) peak_hours); [now left | ].
destruct ((8 <=? hour)%Z && (hour <=? 22)%Z); simpl; auto.
Qed.

Lemma every_service_score_sound
  (P : float -> float -> float -> float -> bool) :
every_service_score P = true ->
forall (s : string) (w : World),
  P (light_of s) (engagement_of s) (timing_of_hour (clock_hour w))
    (toxicity_of s) = true.
Proof.
unfold every_service_score. intros H s w.
apply (forallb_at _ _ (light_of s)) in H; [ | apply light_in].
apply (forallb_at _ _ (engagement_of s)) in H; [ | apply engagement_in].
apply (forallb_at _ _ (timing_of_hour (clock_hour w))) in H;
  [ | apply service_timing_in].
apply (forallb_at _ _ (toxicity_of s)) in H; [ | apply toxicity_in].
exact H.
Qed.

(** The service's run, written without the monad. *)
Lemma run_service (s : string) md (w : World) :
calculate_virality_score (mkSelf true) (PStr s) md w =
match virality_of (light_of s) (engagement_of s)
                  (timing_of_hour (clock_hour w)) (toxicity_of s) with
| Ok v => (Ok (score_of s md w v), w)
| Raise e => (Raise e, printed w "Error calculating virality score" e)
end.
Proof.
unfold calculate_virality_score. cbn [is_initialized negb].
unfold try_except at 1.
rewrite (bind_ok _ _ w w (features_of s md w)) by reflexivity.
rewrite (bind_ok _ _ w w (light_of s))
  by (unfold calculate_light_ranker_score; cbn [is_initialized negb];
      apply try_ok; apply light_body_explicit).
rewrite (bind_ok _ _ w w (toxicity_of s)) by reflexivity.
rewrite (bind_ok _ _ w w (engagement_of s))
  by (unfold calculate_engagement_score; cbn [is_initialized negb];
      apply try_ok; apply engagement_body_explicit).
rewrite (bind_ok _ _ w w (timing_of_hour (clock_hour w))) by reflexivity.
unfold bind, lift, virality_of.
now destruct (int_of_float _).
Qed.

End ServiceEnumFacts.

(** ** The service's suggestions *)

Module ServiceAdviceFacts.

Import PyFloat PyStr PyVal Env Service ServiceRun ServiceAdvice Reach Flags.
Import Shape.
Import ServiceEnum ReachFacts FlagFacts ServiceFacts ServiceEnumFacts.
Local Open Scope string_scope.
Local Open Scope float_scope.

Lemma content_always_low (s : string) : (light_of s * 0.4 <? 0.6) = true.
Proof.
apply (forallb_at (fun l => l * 0.4 <? 0.6) light_values);
  [vm_compute; reflexivity | apply light_in].
Qed.

Lemma signals_always_low (s : string) : (engagement_of s * 0.3 <? 0.5) = true.
Proof.
apply (forallb_at (fun e => e * 0.3 <? 0.5) engagement_values);
  [vm_compute; reflexivity | apply engagement_in].
Qed.

Lemma service_timing_below (hour : Z) :
(timing_of_hour hour <? 0.7) = ((hour <? 8) || (22 <? hour))%Z.
Proof.
unfold timing_of_hour.
destruct (Z.ltb_spec hour 8) as [L | L]; cbn [orb].
- unfold peak_hours. cbn [existsb].
  rewrite !(proj2 (Z.eqb_neq hour _)) by lia.
  replace (8 <=? hour)%Z with false by (symmetry; apply Z.leb_gt; lia).
  reflexivity.
- destruct (Z.ltb_spec 22 hour) as [G | G].
  + unfold peak_hours. cbn [existsb].
    rewrite !(proj2 (Z.eqb_neq hour _)) by lia.
    replace (hour <=? 22)%Z with false by (symmetry; apply Z.leb_gt; lia).
    now rewrite andb_false_r.
  + replace ((8 <=? hour)%Z && (hour <=? 22)%Z) with true
      by (symmetry; apply andb_true_iff; split; apply Z.leb_le; lia).
    now destruct (existsb (Z.eqb hour) peak_hours).
Qed.

Lemma toxicity_above_threshold (s : string) :
(0.3 <? toxicity_of s)
= (2 <=? count_matching toxic_words (lower s))%Z.
Proof.
unfold toxicity_of.
pose proof (in_upto 14 _ (count_matching_bounds toxic_words (lower s))) as H.
revert H. generalize (count_matching toxic_words (lower s)) as c.
intros c H. cbv [upto seq map Z.of_nat Pos.of_succ_nat Pos.succ] in H.
cbn [In] in H.
repeat (destruct H as [<- | H]; [reflexivity | ]). destruct H.
Qed.

Lemma count_matching_cons (word : string) (words : list string)
  (hay : string) :
count_matching (word :: words) hay
= (ind (contains word hay) + count_matching words hay)%Z.
Proof.
rewrite !count_matching_filter. cbn [filter]. unfold ind.
destruct (contains word hay); cbn [List.length]; lia.
Qed.

End ServiceAdviceFacts.

(** ** Statements *)

Import Shape Flags StringFacts FlagFacts.
Import ServiceFacts ServiceEnumFacts ServiceAdviceFacts.
Open Scope float_scope.

(** X1.  Feature extraction never fails and leaves the world as it is; the
    length is the number of characters, the four counts are not negative,
    and the matches they count do not overlap: twice the hashtags and
    mentions plus the question and exclamation marks fit in the length. *)
Theorem extracted_counts_fit_the_text (t : string) (w : World) :
exists f : TweetFeatures,
  extract_features t w = (Ok f, w)
  /\ text f = t /\ length f = len t /\ timestamp f = clock_ms w
  /\ (0 <= hashtag_count f /\ 0 <= mention_count f
      /\ 0 <= question_mark_count f /\ 0 <= exclamation_count f)%Z
  /\ (2 * (hashtag_count f + mention_count f)
      + question_mark_count f + exclamation_count f <= length f)%Z.
Proof.
exists (features_of t w). split; [reflexivity | ].
cbn [features_of text length timestamp hashtag_count mention_count
     question_mark_count exclamation_count].
repeat split; auto using count_tagged_nonneg, count_char_nonneg.
exact (proj1 (marks_bound t)).
Qed.

(** X2.  The flags of the extractor need room in the text: a URL at least 8
    characters, a media marker 7, a retweet mark 4; a reply starts with [@];
    and on a text of length [0] every flag is [false] and every count is
    [0]. *)
Theorem flags_need_room (t : string) (w : World) :
exists f : TweetFeatures,
  extract_features t w = (Ok f, w)
  /\ (has_url f = true -> (8 <= length f)%Z)
  /\ (has_media f = true -> (7 <= length f)%Z)
  /\ (is_retweet f = true -> (4 <= length f)%Z)
  /\ (is_reply f = true -> exists r, t = String "@" r)
  /\ (length f = 0%Z ->
      has_url f = false /\ has_media f = false /\ is_retweet f = false
      /\ is_reply f = false /\ hashtag_count f = 0%Z
      /\ mention_count f = 0%Z /\ question_mark_count f = 0%Z
      /\ exclamation_count f = 0%Z).
Proof.
exists (features_of t w). split; [reflexivity | ].
cbn [features_of has_url has_media is_retweet is_reply length hashtag_count
     mention_count question_mark_count exclamation_count].
split; [apply search_url_length | ].
split.
{ unfold search_media. rewrite <- (lower_length t). intros H.
  apply orb_true_iff in H as [H | H];
    [apply orb_true_iff in H as [H | H] | ];
    apply contains_length in H; exact H. }
split.
{ unfold startswith. intros H. apply orb_true_iff in H as [H | H].
  - apply prefix_length in H. exact H.
  - apply contains_length in H. change (len "via @") with 5%Z in H. lia. }
split.
{ unfold startswith. destruct t as [ | c r]; [discriminate | ].
  cbn [String.prefix]. destruct (ascii_dec "@" c) as [<- | ]; [ | discriminate].
  intros _. now exists r. }
intros H. destruct t as [ | c r]; [now repeat split | ].
unfold len in H. cbn [String.length] in H. lia.
Qed.


(** X4.  The trending score is the largest weight among the topics that occur
    in the lowered text, and [0] when none occurs. *)
Theorem trending_is_largest_matching_weight (t : string) :
(forall (topic : string) (s : float),
   In (topic, s) trending_topics -> contains topic (lower t) = true ->
   fle s (calculate_trending_score t))
/\ ((calculate_trending_score t = 0
     /\ forall (topic : string) (s : float),
          In (topic, s) trending_topics -> contains topic (lower t) = false)
    \/ exists (topic : string) (s : float),
         In (topic, s) trending_topics /\ contains topic (lower t) = true
         /\ calculate_trending_score t = s).
Proof.
set (test := fun word => contains word (lower t)).
assert (C : is_max_flagged (flags_of test trending_topics) trending_topics
              (calculate_trending_score t) = true).
{ change (calculate_trending_score t)
    with (scan py_max test trending_topics 0).
  rewrite scan_as_flags.
  apply (flags_checked
           (fun fl => is_max_flagged fl trending_topics
                        (scan_flags py_max fl trending_topics 0))).
  vm_compute. reflexivity. }
unfold is_max_flagged in C. apply andb_true_iff in C as [C1 C2].
rewrite forallb_forall in C1. split.
- intros topic s Hin Hc.
  specialize (C1 _ (in_combine_flags test _ _ Hin)). cbn [fst snd] in C1.
  unfold test in C1 at 1. now rewrite Hc in C1.
- destruct (existsb (fun b => b) (flags_of test trending_topics)) eqn:E.
  + right. apply existsb_exists in C2 as ([b [topic s]] & Hin & Hp).
    cbn [fst snd] in Hp. apply andb_true_iff in Hp as [-> Hr].
    apply Leibniz.eqb_spec in Hr.
    destruct (combine_flags_in _ _ _ _ Hin) as [Hb Hin'].
    exists topic, s. now repeat split.
  + left. apply Leibniz.eqb_spec in C2. split; [exact C2 | ].
    intros topic s Hin. exact (existsb_flags test _ E _ Hin).
Qed.

(** X5.  The emotional score and the call-to-action score are at most [1], at
    least the weight of every table word that occurs in the lowered text, and
    [0] exactly when none occurs. *)
Theorem capped_keyword_scores (t : string) :
((forall (word : string) (s : float),
    In (word, s) emotional_words -> contains word (lower t) = true ->
    fle s (calculate_emotional_score t))
 /\ fle (calculate_emotional_score t) 1
 /\ ((calculate_emotional_score t = 0
      /\ forall (word : string) (s : float),
           In (word, s) emotional_words -> contains word (lower t) = false)
     \/ ((0 <? calculate_emotional_score t) = true
         /\ exists (word : string) (s : float),
              In (word, s) emotional_words
              /\ contains word (lower t) = true)))
/\ ((forall (word : string) (s : float),
       In (word, s) cta_words -> contains word (lower t) = true ->
       fle s (calculate_cta_score t))
    /\ fle (calculate_cta_score t) 1
    /\ ((calculate_cta_score t = 0
         /\ forall (word : string) (s : float),
              In (word, s) cta_words -> contains word (lower t) = false)
        \/ ((0 <? calculate_cta_score t) = true
            /\ exists (word : string) (s : float),
                 In (word, s) cta_words /\ contains word (lower t) = true))).
Proof.
split.
- apply (capped_sum_checked t emotional_words). vm_compute. reflexivity.
- apply (capped_sum_checked t cta_words). vm_compute. reflexivity.
Qed.

(** X6.  The lower clamp of the content quality and of the engagement
    potential never fires: the totals are at least [0.3 - 0.1 - 0.05] and
    [0.2 - 0.1 - 0.05], so both scores are the total capped at [1] and are
    never [0]. *)
Theorem lower_clamp_never_fires (f : TweetFeatures) :
(fle (0.3 - 0.1 - 0.05) (calculate_content_quality f)
 /\ calculate_content_quality f = py_min 1 (quality_total_of f))
/\ (fle (0.2 - 0.1 - 0.05) (calculate_engagement_potential f)
    /\ calculate_engagement_potential f = py_min 1 (engagement_total_of f)).
Proof.
split.
- rewrite ReachFacts.content_quality_total.
  assert (H : ((0.3 - 0.1 - 0.05 <=? py_max 0 (py_min 1 (quality_total_of f)))
               && Leibniz.eqb (py_max 0 (py_min 1 (quality_total_of f)))
                              (py_min 1 (quality_total_of f)))%bool = true).
  { apply (ReachFacts.every_quality_total_sound
             (fun s => ((0.3 - 0.1 - 0.05 <=? py_max 0 (py_min 1 s))
                        && Leibniz.eqb (py_max 0 (py_min 1 s))
                                       (py_min 1 s))%bool)).
    vm_compute. reflexivity. }
  apply andb_true_iff in H as [H1 H2]. apply Leibniz.eqb_spec in H2.
  now split.
- rewrite engagement_total_clamped.
  assert (H : ((0.2 - 0.1 - 0.05
                <=? py_max 0 (py_min 1 (engagement_total_of f)))
               && Leibniz.eqb (py_max 0 (py_min 1 (engagement_total_of f)))
                              (py_min 1 (engagement_total_of f)))%bool = true).
  { apply (every_engagement_total_sound
             (fun s => ((0.2 - 0.1 - 0.05 <=? py_max 0 (py_min 1 s))
                        && Leibniz.eqb (py_max 0 (py_min 1 s))
                                       (py_min 1 s))%bool)).
    vm_compute. reflexivity. }
  apply andb_true_iff in H as [H1 H2]. apply Leibniz.eqb_spec in H2.
  now split.
Qed.

(** X7.  The suggestions come in the fixed order content, engagement, timing,
    discoverability, one per rule that fires; the list is empty exactly when
    no score is below its threshold and the hashtag count is neither [0] nor
    above [3]. *)
Theorem suggestion_types_in_fixed_order (b : Breakdown) (f : TweetFeatures) :
map type_ (generate_suggestions b f)
= (when (content_quality b <? 0.6) "content"
   ++ when (social_signals b <? 0.5) "engagement"
   ++ when (timing b <? 0.7) "timing"
   ++ when ((hashtag_count f =? 0) || (hashtag_count f >? 3))%Z
           "discoverability")%list
/\ (generate_suggestions b f = []
    <-> (content_quality b <? 0.6) = false
        /\ (social_signals b <? 0.5) = false
        /\ (timing b <? 0.7) = false
        /\ hashtag_count f <> 0%Z /\ (hashtag_count f <= 3)%Z).
Proof.
unfold generate_suggestions, when.
destruct (content_quality b <? 0.6); [destruct (length f <? 100)%Z | ];
  (destruct (social_signals b <? 0.5);
   [destruct (question_mark_count f =? 0)%Z | ]);
  destruct (timing b <? 0.7);
  (destruct (Z.eqb_spec (hashtag_count f) 0) as [E0 | E0];
   [ | destruct (Z.gtb_spec (hashtag_count f) 3) as [E3 | E3]]);
  cbn [app map type_ orb];
  (split; [reflexivity | ]);
  (split; [intros H; try discriminate H; repeat split; lia
          | intros (H1 & H2 & H3 & H4 & H5); try discriminate; try lia;
            reflexivity]).
Qed.

Lemma timing_below_threshold (hour : Z) :
(timing_of_hour hour <? 0.7) = true
<-> ~ In hour [9; 10; 12; 13; 17; 18; 19; 20; 21]%Z.
Proof.
unfold timing_of_hour. cbn [In].
destruct (Z.leb_spec 9 hour), (Z.leb_spec hour 10),
  (Z.leb_spec 12 hour), (Z.leb_spec hour 13),
  (Z.leb_spec 17 hour), (Z.leb_spec hour 18),
  (Z.leb_spec 19 hour), (Z.leb_spec hour 21),
  (Z.leb_spec 8 hour), (Z.leb_spec hour 22); cbn [andb];
  try lia;
  (split; [intros K; try discriminate K; lia | intros K; try reflexivity; lia]).
Qed.

Lemma peak_hours_emitted (b : Breakdown) (f : TweetFeatures) :
In peak_hours (generate_suggestions b f) <-> (timing b <? 0.7) = true.
Proof.
unfold generate_suggestions.
destruct (content_quality b <? 0.6); [destruct (length f <? 100)%Z | ];
  (destruct (social_signals b <? 0.5);
   [destruct (question_mark_count f =? 0)%Z | ]);
  destruct (timing b <? 0.7);
  destruct (hashtag_count f =? 0)%Z;
  try destruct (hashtag_count f >? 3)%Z;
  cbn [app In];
  (split; [intros K; try reflexivity;
           repeat (destruct K as [K | K]; [discriminate K | ]); destruct K
          | intros K; try discriminate K; tauto]).
Qed.

(** X8.  In every run the advice to post at a peak hour is given exactly when
    the hour read is outside the windows the advice names: 9-10, 12-13,
    17-18 and 19-21. *)
Theorem peak_hours_advice_only_off_peak (t : string) (w : World) :
exists (a : Analysis) (w' : World),
  calculate_virality_score t w = (Ok a, w')
  /\ (In peak_hours (suggestions a)
      <-> ~ In (clock_hour w) [9; 10; 12; 13; 17; 18; 19; 20; 21]%Z).
Proof.
destruct (run_total t w) as (v & Hrun & _).
exists (analysis_of t w v), (after_draw w). split; [exact Hrun | ].
cbn [analysis_of suggestions].
rewrite peak_hours_emitted. cbn [breakdown_of timing].
apply timing_below_threshold.
Qed.

(** X9.  With the service initialised, every string is scored, nothing is
    printed, and the composite score lies between 127 and 245: the service
    never returns a score of 100 or less. *)
Theorem service_score_between_127_and_245
  (s : string) md (w : World) :
exists a : Service.AlgorithmScore,
  Service.calculate_virality_score (Service.mkSelf true) (PyVal.PStr s) md w
  = (Ok a, w)
  /\ (127 <= Service.virality_score a <= 245)%Z.
Proof.
rewrite run_service.
pose proof (every_service_score_sound
  (fun l e tm tox =>
     match ServiceEnum.virality_of l e tm tox with
     | Ok v => ((127 <=? v) && (v <=? 245))%Z
     | Raise _ => false
     end) ltac:(vm_compute; reflexivity) s w) as H.
cbv beta in H.
destruct (ServiceEnum.virality_of _ _ _ _) as [v | e]; [ | discriminate H].
exists (ServiceEnum.score_of s md w v). split; [reflexivity | ].
cbn [ServiceEnum.score_of Service.virality_score]. lia.
Qed.

(** X10.  In a run of the service the suggestions for the scored text always
    start with the content and the engagement advice, since the breakdown's
    [content_quality] and [social_signals] are the sub-scores scaled by [0.4]
    and [0.3]; the timing advice follows exactly when the hour is before 8 or
    after 22, and the safety advice exactly when at least two toxic words
    occur. *)
Theorem service_suggestions_of_a_run (s : string) md (w : World) :
exists a : Service.AlgorithmScore,
  Service.calculate_virality_score (Service.mkSelf true) (PyVal.PStr s) md w
  = (Ok a, w)
  /\ ServiceAdvice.generate_suggestions a
     = ([ServiceAdvice.improve_content; ServiceAdvice.add_engagement]
        ++ (if ((clock_hour w <? 8) || (22 <? clock_hour w))%Z
            then [ServiceAdvice.post_at_peak] else [])
        ++ (if (2 <=? PyVal.count_matching Service.toxic_words (lower s))%Z
            then [ServiceAdvice.reduce_offensive] else []))%list.
Proof.
destruct (service_score_between_127_and_245 s md w) as (a & Hrun & _).
exists a. split; [exact Hrun | ].
rewrite run_service in Hrun.
destruct (ServiceEnum.virality_of _ _ _ _) as [v | e]; [ | discriminate Hrun].
injection Hrun as <-.
unfold ServiceAdvice.generate_suggestions.
cbn [ServiceEnum.score_of ServiceEnum.breakdown_of Service.breakdown
     Service.content_quality Service.social_signals Service.timing
     Service.toxicity_score].
rewrite content_always_low, signals_always_low, service_timing_below,
  toxicity_above_threshold.
destruct ((clock_hour w <? 8) || (22 <? clock_hour w))%Z;
  destruct (2 <=? PyVal.count_matching Service.toxic_words (lower s))%Z;
  reflexivity.
Qed.

(** X11.  The metadata only fills [author_id] and [tweet_id]: two runs on the
    same string with different metadata give the same scores and breakdown;
    without metadata, or with an empty dict, both identifiers are [None]. *)
Theorem metadata_only_fills_the_identifiers
  (s : string) md1 md2 (w : World) :
exists a1 a2 : Service.AlgorithmScore,
  Service.calculate_virality_score (Service.mkSelf true) (PyVal.PStr s) md1 w
  = (Ok a1, w)
  /\ Service.calculate_virality_score
       (Service.mkSelf true) (PyVal.PStr s) md2 w
     = (Ok a2, w)
  /\ Service.virality_score a1 = Service.virality_score a2
  /\ Service.breakdown a1 = Service.breakdown a2
  /\ Service.light_ranker_score a1 = Service.light_ranker_score a2
  /\ Service.toxicity_score a1 = Service.toxicity_score a2
  /\ Service.engagement_score a1 = Service.engagement_score a2
  /\ Service.author_id (Service.features a1)
     = Service.meta_get "authorId" md1
  /\ Service.tweet_id (Service.features a1) = Service.meta_get "tweetId" md1
  /\ (md1 = None \/ md1 = Some [] ->
      Service.author_id (Service.features a1) = PyVal.PNone
      /\ Service.tweet_id (Service.features a1) = PyVal.PNone).
Proof.
rewrite !run_service.
destruct (ServiceEnum.virality_of _ _ _ _) as [v | e] eqn:E.
- exists (ServiceEnum.score_of s md1 w v), (ServiceEnum.score_of s md2 w v).
  repeat (split; [reflexivity | ]). intros [-> | ->]; split; reflexivity.
- exfalso.
  destruct (service_run_total s md1 w) as (a & Hrun & _).
  rewrite run_service, E in Hrun. discriminate Hrun.
Qed.

(** X12.  The service's scorer raises [RuntimeError] and prints nothing when
    the service is not initialised; initialised, on a text that is no string
    it prints one line and raises the [TypeError] again. *)
Theorem service_run_failures (t : PyVal.pyval) md (w : World) :
Service.calculate_virality_score (Service.mkSelf false) t md w
= (Raise Service.not_initialized, w)
/\ match t with
   | PyVal.PStr _ => True
   | _ =>
       Service.calculate_virality_score (Service.mkSelf true) t md w
       = (Raise TypeError,
          ServiceRun.printed w "Error calculating virality score" TypeError)
   end.
Proof. split; [reflexivity | ]. now destruct t. Qed.

(** X13.  For every text the toxicity the service computes is at least the
    toxicity the enhanced scorer computes: its word list contains the other
    and its product saturates at [1.0] where the other's sum ends. *)
Theorem service_toxicity_is_no_lower (t : string) :
fle (Enhanced.toxicity_of t) (ServiceRun.toxicity_of t).
Proof.
unfold fle, Enhanced.toxicity_of, ServiceRun.toxicity_of,
  Enhanced.toxic_words, Service.toxic_words.
rewrite !count_matching_cons. cbn [fold_left].
change (PyVal.count_matching [] (lower t)) with 0%Z.
set (rest := (ind (contains "moron" (lower t))
             + (ind (contains "damn" (lower t))
             + (ind (contains "hell" (lower t))
             + (ind (contains "crap" (lower t))
             + (ind (contains "suck" (lower t))
             + (ind (contains "terrible" (lower t))
             + (ind (contains "awful" (lower t))
             + (ind (contains "disgusting" (lower t))
             + ind (contains "pathetic" (lower t))))))))))%Z).
assert (Hrest : In rest (ServiceEnum.upto 9)).
{ apply in_upto. subst rest. unfold ind.
  repeat match goal with
         | |- context [contains ?word ?hay] => destruct (contains word hay)
         end; simpl; lia. }
replace (ind (contains "hate" (lower t)) +
         (ind (contains "stupid" (lower t)) +
          (ind (contains "idiot" (lower t)) +
           (ind (contains "moron" (lower t)) +
            (ind (contains "kill" (lower t)) +
             (ind (contains "die" (lower t)) +
              (ind (contains "damn" (lower t)) +
               (ind (contains "hell" (lower t)) +
                (ind (contains "crap" (lower t)) +
                 (ind (contains "suck" (lower t)) +
                  (ind (contains "terrible" (lower t)) +
                   (ind (contains "awful" (lower t)) +
                    (ind (contains "disgusting" (lower t)) +
                     (ind (contains "pathetic" (lower t)) + 0))))))))))))))%Z
  with (ind (contains "hate" (lower t)) + ind (contains "stupid" (lower t))
        + ind (contains "idiot" (lower t)) + ind (contains "kill" (lower t))
        + ind (contains "die" (lower t)) + rest)%Z
  by (subst rest; lia).
clearbody rest.
cbv [ServiceEnum.upto seq map Z.of_nat Pos.of_succ_nat Pos.succ] in Hrest.
cbn [In] in Hrest.
destruct (contains "hate" (lower t)), (contains "stupid" (lower t)),
  (contains "idiot" (lower t)), (contains "kill" (lower t)),
  (contains "die" (lower t));
  repeat (destruct Hrest as [<- | Hrest]; [reflexivity | ]); destruct Hrest.
Qed.

(** X14.  When the enhanced module can be imported, [run_full_analysis]
    returns the enhanced scorer's result on a string, whether or not the
    service is initialised and whatever the metadata; when it cannot, an
    initialised service returns its own score with its suggestions and the
    version tag [twitter-algorithm-v1.0]. *)
Theorem full_analysis_prefers_the_enhanced_scorer
  (elapsed : Z) (self : Service.Self) (s : string) md (w : World) :
(exists (a : Enhanced.Analysis) (w' : World),
   Enhanced.calculate_virality_score s w = (Ok a, w')
   /\ ServiceAdvice.run_full_analysis true elapsed self (PyVal.PStr s) md w
      = (Ok (ServiceAdvice.FromEnhanced a), w'))
/\ exists a : Service.AlgorithmScore,
     Service.calculate_virality_score
       (Service.mkSelf true) (PyVal.PStr s) md w = (Ok a, w)
     /\ ServiceAdvice.run_full_analysis
          false elapsed (Service.mkSelf true) (PyVal.PStr s) md w
        = (Ok (ServiceAdvice.FromService
                 a (ServiceAdvice.generate_suggestions a)
                 "twitter-algorithm-v1.0" elapsed), w).
Proof.
split.
- destruct (run_total s w) as (v & Hrun & _).
  exists (analysis_of s w v), (after_draw w). split; [exact Hrun | ].
  unfold ServiceAdvice.run_full_analysis, try_except, bind.
  now rewrite Hrun.
- destruct (service_run_total s md w) as (a & Hrun & _).
  exists a. split; [exact Hrun | ].
  unfold ServiceAdvice.run_full_analysis, try_except, bind.
  now rewrite Hrun.
Qed.

(** X15.  [run_full_analysis] prints one line and raises again whatever
    escapes: [RuntimeError] from an uninitialised service when the enhanced
    module is missing; [TypeError] on a text that is no string, with no
    fallback from the enhanced scorer to the service, and after two printed
    lines when the service itself was scoring. *)
Theorem full_analysis_failures
  (elapsed : Z) (self : Service.Self) (t : PyVal.pyval) md (w : World) :
ServiceAdvice.run_full_analysis false elapsed (Service.mkSelf false) t md w
= (Raise Service.not_initialized,
   ServiceRun.printed w "Error running full analysis"
                      Service.not_initialized)
/\ match t with
   | PyVal.PStr _ => True
   | _ =>
       ServiceAdvice.run_full_analysis true elapsed self t md w
       = (Raise TypeError,
          ServiceRun.printed w "Error running full analysis" TypeError)
       /\ ServiceAdvice.run_full_analysis
            false elapsed (Service.mkSelf true) t md w
          = (Raise TypeError,
             ServiceRun.printed
               (ServiceRun.printed
                  w "Error calculating virality score" TypeError)
               "Error running full analysis" TypeError)
   end.
Proof. split; [reflexivity | ]. destruct t; try exact I; now split. Qed.
